(** * replicate-python: transport core and collections

    A shallow embedding of [replicate/client.py] and
    [replicate/collection.py].  Python values are modelled by the data they
    carry, exceptions by an explicit result type, and the network together
    with the sleeping done by the retry machinery by a small state monad that
    records every transmission and every delay. *)

From Stdlib Require Import ZArith String Ascii List Bool Lia.
From stdpp Require Import base option list gmap strings pretty.

#[local] Set Warnings "-register-all".

Open Scope string_scope.
Open Scope Z_scope.

(** ** Python values *)

(** The value [resp.json()] evaluates to.  A JSON object becomes a [dict]
    with string keys. *)
Inductive Json : Type :=
| JNull
| JBool (b : bool)
| JInt (n : Z)
| JReal (literal : string)
| JStr (s : string)
| JArr (items : list Json)
| JObj (fields : gmap string Json).

(** The exception classes that the modelled code can raise.  The argument of
    [ReplicateError] is whatever object the code passes to the constructor:
    a [str] (as [JStr]) or the decoded [detail] value. *)
Inductive Exn : Type :=
| ReplicateError (arg : Json)
| ValueError (msg : string)
| TypeError
| KeyError (key : string)
| IndexError
| AttributeError
| JSONDecodeError
| MaxRetryError
| RetryError.

Inductive Result (A : Type) : Type :=
| Return (a : A)
| Raise (e : Exn).
Arguments Return {A} a.
Arguments Raise {A} e.

(** [str.upper()] on ASCII text. *)
Definition upper_ascii (c : ascii) : ascii :=
  let n := nat_of_ascii c in
  if (Nat.leb 97 n && Nat.leb n 122)%bool then ascii_of_nat (n - 32) else c.

Fixpoint upper (s : string) : string :=
  match s with
  | EmptyString => EmptyString
  | String c s' => String (upper_ascii c) (upper s')
  end.

(** [repr] of a [str] whose characters are ASCII: the quote is a single
    quote unless the text has a single quote and no double quote; the quote
    character and the backslash are escaped, tab, newline and carriage return
    get their letter escapes and the other control characters a [\x] escape. *)
Fixpoint contains_char (c : ascii) (s : string) : bool :=
  match s with
  | EmptyString => false
  | String d s' => (Ascii.eqb c d || contains_char c s')%bool
  end.

Definition hex_digit (n : nat) : ascii :=
  if Nat.ltb n 10 then ascii_of_nat (48 + n) else ascii_of_nat (87 + n).

Definition backslash : ascii := ascii_of_nat 92.

Definition repr_char (quote c : ascii) : string :=
  let n := nat_of_ascii c in
  if (Ascii.eqb c quote || Ascii.eqb c backslash)%bool then String backslash (String c EmptyString)
  else if Nat.eqb n 9 then String backslash "t"
  else if Nat.eqb n 10 then String backslash "n"
  else if Nat.eqb n 13 then String backslash "r"
  else if (Nat.ltb n 32 || Nat.eqb n 127)%bool then
    String backslash (String "x" (String (hex_digit (n / 16)) (String (hex_digit (n mod 16)) EmptyString)))
  else String c EmptyString.

Fixpoint repr_chars (quote : ascii) (s : string) : string :=
  match s with
  | EmptyString => EmptyString
  | String c s' => repr_char quote c +:+ repr_chars quote s'
  end.

Definition double_quote : ascii := ascii_of_nat 34.

Definition repr_str (s : string) : string :=
  let quote :=
    if (contains_char "'" s && negb (contains_char double_quote s))%bool
    then double_quote else "'"%char in
  String quote (repr_chars quote s +:+ String quote EmptyString).

(** [repr] of an [int]. *)
Definition repr_int (n : Z) : string := pretty n.

(** ** HTTP responses and requests *)

(** What the code reads from a response object: the status line, the result
    of decoding the body as JSON ([None] when the body is not JSON, in which
    case [resp.json()] raises [JSONDecodeError]) and the number of seconds of
    the [Retry-After] header when the response has one. *)
Record Response : Type := mkResponse {
  status_code : Z;
  reason : string;
  json_body : option Json;
  retry_after : option Z
}.

(** One transmission as the remote end sees it.  [follow] tells whether the
    HTTP library resolves redirects for this request. *)
Record Request : Type := mkRequest {
  req_method : string;
  req_url : string;
  req_headers : gmap string string;
  follow : bool;
  req_extra : gmap string string
}.

(** The remote service: its answer to a request, given how many
    transmissions came before it.  The service is taken to answer on what
    the client code hands to the HTTP library (a [Request]) and on the
    position in the exchange, and to answer every transmission.  Which
    answers a real exchange can hold (no body for a [HEAD] request, a final
    status) is said by the statements that need it, see [wellformed_call],
    [final_status] and [no_redirect] below. *)
Definition Server : Type := Request -> nat -> Response.

(** ** Effects: transmissions and sleeps *)

Record World : Type := mkWorld {
  sent : list Request;
  slept : list Z
}.

Definition world0 : World := {| sent := []; slept := [] |}.

(** A computation either runs out of fuel ([None]) or ends in a result and a
    new world. *)
Definition M (A : Type) : Type := World -> option (Result A * World).

Definition raise {A} (e : Exn) : M A := fun w => Some (Raise e, w).
Definition lift {A} (r : Result A) : M A := fun w => Some (r, w).
Definition diverge {A} : M A := fun _ => None.

#[export] Instance M_ret : MRet M := fun A (a : A) w => Some (Return a, w).

#[export] Instance M_bind : MBind M := fun A B (k : A -> M B) (m : M A) w =>
  match m w with
  | None => None
  | Some (Return a, w') => k a w'
  | Some (Raise e, w') => Some (Raise e, w')
  end.

(** [try: m except e: h e] *)
Definition try_except {A} (m : M A) (h : Exn -> M A) : M A :=
  fun w =>
    match m w with
    | Some (Raise e, w') => h e w'
    | r => r
    end.

Definition transmit (server : Server) (rq : Request) : M Response :=
  fun w => Some (Return (server rq (length (sent w))),
                 {| sent := sent w ++ [rq]; slept := slept w |}).

(** [time.sleep(d)] *)
Definition sleep (d : Z) : M unit :=
  fun w => Some (Return tt, {| sent := sent w; slept := slept w ++ [d] |}).

(** Exceptions without effects: [Result] is a monad too. *)
#[export] Instance Result_ret : MRet Result := fun A (a : A) => Return a.

#[export] Instance Result_bind : MBind Result := fun A B (k : A -> Result B) (r : Result A) =>
  match r with
  | Return a => k a
  | Raise e => Raise e
  end.

(** ** The retry machinery of urllib3 and requests

    [Client.__init__] configures [urllib3.util.retry.Retry] objects and
    mounts them on [requests] sessions.  The definitions of this module
    follow urllib3 1.26 (the release line that accepts [method_whitelist]):
    [Retry.is_retry], [Retry.increment], [Retry.is_exhausted],
    [Retry.get_backoff_time], [Retry.sleep] and the response branch of
    [HTTPConnectionPool.urlopen]. *)
Module urllib3.

(** The fields of [Retry] that the client sets, and the length of
    [history].  The other counters keep their default [None];
    [respect_retry_after_header] and [raise_on_status] keep their default
    [True]. *)
Record Retry : Type := mkRetry {
  total : Z;
  backoff_factor : Z;
  method_whitelist : list string;
  status_forcelist : list Z;
  history : nat
}.

Definition BACKOFF_MAX : Z := 120.
Definition RETRY_AFTER_STATUS_CODES : list Z := [413; 429; 503].

Definition nonempty {A} (l : list A) : bool :=
  match l with [] => false | _ => true end.

Definition _is_method_retryable (self : Retry) (method : string) : bool :=
  if (nonempty (method_whitelist self)
      && negb (bool_decide (upper method ∈ method_whitelist self)))%bool
  then false else true.

Definition is_retry (self : Retry) (method : string) (status : Z)
    (has_retry_after : bool) : bool :=
  if negb (_is_method_retryable self method) then false
  else if (nonempty (status_forcelist self)
           && bool_decide (status ∈ status_forcelist self))%bool then true
  else (negb (total self =? 0) && has_retry_after
        && bool_decide (status ∈ RETRY_AFTER_STATUS_CODES))%bool.

(** With [total] the only counter set, [min(retry_counts) < 0] after
    [filter(None, ...)] has dropped a zero. *)
Definition is_exhausted (self : Retry) : bool :=
  (negb (total self =? 0) && (total self <? 0))%bool.

Definition increment (self : Retry) : Result Retry :=
  let new_retry :=
    {| total := total self - 1;
       backoff_factor := backoff_factor self;
       method_whitelist := method_whitelist self;
       status_forcelist := status_forcelist self;
       history := S (history self) |} in
  if is_exhausted new_retry then Raise MaxRetryError else Return new_retry.

Definition get_backoff_time (self : Retry) : Z :=
  if (history self <=? 1)%nat then 0
  else Z.min BACKOFF_MAX (backoff_factor self * 2 ^ (Z.of_nat (history self) - 1)).

(** [Retry.sleep]: the [Retry-After] delay when the header gives a
    positive one, the backoff delay otherwise, and no sleep at all for a
    backoff of zero. *)
Definition sleep (self : Retry) (response : Response) : M unit :=
  let retry_after := from_option (Z.max 0) 0 (retry_after response) in
  if 0 <? retry_after then sleep retry_after
  else
    let backoff := get_backoff_time self in
    if backoff <=? 0 then mret tt else sleep backoff.

(** [urlopen] calls itself after each retried response; [fuel] bounds the
    depth of that recursion. *)
Fixpoint urlopen (fuel : nat) (server : Server) (rq : Request)
    (retries : Retry) : M Response :=
  match fuel with
  | O => diverge
  | S fuel' =>
      response ← transmit server rq;
      let has_retry_after := bool_decide (is_Some (retry_after response)) in
      if is_retry retries (req_method rq) (status_code response) has_retry_after
      then
        retries ← lift (increment retries);
        sleep retries response;;
        urlopen fuel' server rq retries
      else mret response
  end.

End urllib3.

(** [requests.Session]: the adapter mounted for [http://] and [https://]. *)
Record Session : Type := mkSession { max_retries : urllib3.Retry }.

(** [httpx.AsyncHTTPTransport(retries=n)]: [n] bounds the attempts to
    establish a connection; a response that arrives is never sent again. *)
Record AsyncHTTPTransport : Type := mkTransport { retries : Z }.

(** The keyword arguments of [_request]: the two entries the method looks
    at, and the others, which it passes on. *)
Record Kwargs : Type := mkKwargs {
  allow_redirects : option bool;
  headers : option (gmap string string);
  extra : gmap string string
}.

Definition no_kwargs : Kwargs :=
  {| allow_redirects := None; headers := None; extra := ∅ |}.

(** [kwargs.setdefault("allow_redirects", b)] *)
Definition setdefault_allow_redirects (b : bool) (kwargs : Kwargs) : Kwargs :=
  {| allow_redirects := Some (default b (allow_redirects kwargs));
     headers := headers kwargs; extra := extra kwargs |}.

(** [kwargs.setdefault("headers", {})] *)
Definition setdefault_headers (kwargs : Kwargs) : Kwargs :=
  {| allow_redirects := allow_redirects kwargs;
     headers := Some (default ∅ (headers kwargs)); extra := extra kwargs |}.

(** [kwargs["headers"].update(h)] *)
Definition update_headers (h : gmap string string) (kwargs : Kwargs) : Kwargs :=
  {| allow_redirects := allow_redirects kwargs;
     headers := (fun old => h ∪ old) <$> headers kwargs; extra := extra kwargs |}.

(** [kwargs.pop("allow_redirects")] *)
Definition pop_allow_redirects (kwargs : Kwargs) : Kwargs :=
  {| allow_redirects := None; headers := headers kwargs; extra := extra kwargs |}.

(** [Session.request(method, url, **kwargs)] followed by
    [HTTPAdapter.send]: the method goes out in upper case,
    [allow_redirects] defaults to [True], and a [MaxRetryError] caused by
    responses comes back as [RetryError].

    Scope.  This is one exchange with the origin of [url], from the point
    where the library has accepted the call.  Not modelled: the checks made
    before anything is sent (header values and names, a URL that can be
    prepared, keyword arguments the library knows), which end the call in an
    exception of the library; the merge of header names without regard to
    case; and the following of a redirect, which opens a new exchange, with
    the retry budget afresh.  [follow] only records what the library is
    asked to do.  Statements about what is sent, or how often, take
    [wellformed_call] and [no_redirect] as hypotheses for that reason. *)
Definition Session_request (self : Session) (server : Server)
    (method url : string) (kwargs : Kwargs) : M Response :=
  let rq := {| req_method := upper method; req_url := url;
               req_headers := default ∅ (headers kwargs);
               follow := default true (allow_redirects kwargs);
               req_extra := extra kwargs |} in
  let retries := max_retries self in
  try_except
    (urllib3.urlopen (S (Z.to_nat (urllib3.total retries))) server rq retries)
    (fun e => match e with MaxRetryError => raise RetryError | _ => raise e end).

(** [httpx.AsyncClient(follow_redirects=..., transport=...).request].
    The scope is that of [Session_request]: one exchange, from the point
    where the library has accepted the call; its checks of header values, of
    the URL and of the keyword arguments, and the following of redirects,
    are not modelled. *)
Definition AsyncClient_request (follow_redirects : bool)
    (transport : AsyncHTTPTransport) (server : Server)
    (method url : string) (kwargs : Kwargs) : M Response :=
  transmit server
    {| req_method := upper method; req_url := url;
       req_headers := default ∅ (headers kwargs);
       follow := follow_redirects;
       req_extra := extra kwargs |}.

(** ** [replicate.client.Client] *)

(** A Python [float]: not a number, an infinity, or [m * 2 ^ e]. *)
Inductive PyFloat : Type :=
| FNan
| FInf (negative : bool)
| FFinite (m e : Z).

Record Client : Type := mkClient {
  api_token : option string;
  base_url : string;
  poll_interval : PyFloat;
  httpx_transport : AsyncHTTPTransport;
  read_session : Session;
  write_session : Session
}.

(** The retry policies that [__init__] builds. *)
Definition read_retries : urllib3.Retry :=
  {| urllib3.total := 5;
     urllib3.backoff_factor := 2;
     urllib3.method_whitelist := ["GET"];
     urllib3.status_forcelist :=
       [429; 500; 502; 503; 504; 520; 521; 522; 523; 524; 526; 527];
     urllib3.history := 0 |}.

Definition write_retries : urllib3.Retry :=
  {| urllib3.total := 5;
     urllib3.backoff_factor := 2;
     urllib3.method_whitelist := ["POST"; "PUT"];
     urllib3.status_forcelist := [429];
     urllib3.history := 0 |}.

Definition no_token_message : string :=
  "No API token provided. You need to set the REPLICATE_API_TOKEN environment variable or create a client with `replicate.Client(api_token=...)`." +:+
  String (ascii_of_nat 10) (String (ascii_of_nat 10)
    "You can find your API key on https://replicate.com").

(** Which HTTP library built the response object: [requests.Response] has
    the attribute [reason]; [httpx.Response] calls it [reason_phrase] and has
    no [reason]. *)
Inductive Library : Type := Requests | Httpx.

Definition attr_reason (lib : Library) (resp : Response) : Result string :=
  match lib with
  | Requests => Return (reason resp)
  | Httpx => Raise AttributeError
  end.

(** [resp.json()] *)
Definition json (resp : Response) : Result Json :=
  match json_body resp with
  | Some v => Return v
  | None => Raise JSONDecodeError
  end.

(** [v[key]] for a [str] key. *)
Definition getitem (v : Json) (key : string) : Result Json :=
  match v with
  | JObj fields =>
      match fields !! key with
      | Some x => Return x
      | None => Raise (KeyError key)
      end
  | _ => Raise TypeError
  end.

(** [f"HTTP error: {status, reason}"]: the text of a tuple of two. *)
Definition http_error_message (status : Z) (reason : string) : string :=
  "HTTP error: " +:+ "(" +:+ repr_int status +:+ ", " +:+ repr_str reason +:+ ")".

(** The last statements of [_request] and of [_request_async], which are
    the same text applied to the response object of either library. *)
Definition check_status (lib : Library) (resp : Response) : M Response :=
  if ((400 <=? status_code resp) && (status_code resp <? 600))%bool then
    try_except
      (detail ← lift (v ← json resp; getitem v "detail");
       raise (ReplicateError detail))
      (fun e => match e with
                | JSONDecodeError | KeyError _ => mret tt
                | _ => raise e
                end);;
    reason ← lift (attr_reason lib resp);
    raise (ReplicateError (JStr (http_error_message (status_code resp) reason)))
  else mret resp.

Section Client.

(** [replicate.__about__.__version__] *)
Variable version : string.

(** The builtin [float] applied to a [str]. *)
Variable float : string -> Result PyFloat.

(** [os.environ] is a mapping from names to values. *)
Implicit Type environ : gmap string string.

Definition __init__ (api_token : option string) environ : Result Client :=
  let base_url :=
    default "https://api.replicate.com" (environ !! "REPLICATE_API_BASE_URL") in
  poll_interval ← float (default "0.5" (environ !! "REPLICATE_POLL_INTERVAL"));
  let max_retries := 5 in
  mret {| api_token := api_token;
          base_url := base_url;
          poll_interval := poll_interval;
          httpx_transport := {| retries := max_retries |};
          read_session := {| max_retries := read_retries |};
          write_session := {| max_retries := write_retries |} |}.

Definition _api_token (self : Client) environ : Result string :=
  let token := api_token self in
  let token :=
    match token with
    | None => environ !! "REPLICATE_API_TOKEN"
    | Some _ => token
    end in
  match token with
  | None | Some "" => Raise (ReplicateError (JStr no_token_message))
  | Some token => Return token
  end.

Definition _headers (self : Client) environ : Result (gmap string string) :=
  token ← _api_token self environ;
  mret ({[ "Authorization" := "Token " +:+ token;
           "User-Agent" := "replicate-python@" +:+ version ]} : gmap string string).

Definition _request (self : Client) environ (server : Server)
    (method path : string) (kwargs : Kwargs) : M Response :=
  let kwargs :=
    if bool_decide (method ∈ ["GET"; "OPTIONS"])
    then setdefault_allow_redirects true kwargs else kwargs in
  let kwargs :=
    if bool_decide (method ∈ ["HEAD"])
    then setdefault_allow_redirects false kwargs else kwargs in
  let kwargs := setdefault_headers kwargs in
  h ← lift (_headers self environ);
  let kwargs := update_headers h kwargs in
  let session := read_session self in
  let session :=
    if bool_decide (method ∈ ["POST"; "PUT"; "DELETE"; "PATCH"])
    then write_session self else session in
  resp ← Session_request session server method (base_url self +:+ path) kwargs;
  check_status Requests resp.

Definition _request_async (self : Client) environ (server : Server)
    (method path : string) (kwargs : Kwargs) : M Response :=
  let kwargs :=
    if bool_decide (method ∈ ["GET"; "OPTIONS"])
    then setdefault_allow_redirects true kwargs else kwargs in
  let kwargs :=
    if bool_decide (method ∈ ["HEAD"])
    then setdefault_allow_redirects false kwargs else kwargs in
  let kwargs := setdefault_headers kwargs in
  h ← lift (_headers self environ);
  let kwargs := update_headers h kwargs in
  let kwargs :=
    if bool_decide (is_Some (allow_redirects kwargs))
    then pop_allow_redirects kwargs else kwargs in
  resp ← AsyncClient_request true (httpx_transport self) server method
           (base_url self +:+ path) kwargs;
  check_status Httpx resp.

End Client.

(** ** [replicate.collection] *)

(** An index expression: an [int], a slice [start:stop:step], or an object
    of another type. *)
Inductive Index : Type :=
| IdxInt (i : Z)
| IdxSlice (start stop step : option Z)
| IdxOther.

(** [slice.indices(len)] and the positions it selects. *)
Definition adjust_index (len step i : Z) : Z :=
  if i <? 0 then
    let i := i + len in
    if i <? 0 then (if step <? 0 then -1 else 0) else i
  else if len <=? i then (if step <? 0 then len - 1 else len)
  else i.

Definition slice_positions (len : Z) (start stop : option Z) (step : Z) : list Z :=
  let first :=
    match start with
    | Some i => adjust_index len step i
    | None => if step <? 0 then len - 1 else 0
    end in
  let last :=
    match stop with
    | Some i => adjust_index len step i
    | None => if step <? 0 then -1 else len
    end in
  let count :=
    if step <? 0
    then (if last <? first then (first - last - 1) / (- step) + 1 else 0)
    else (if first <? last then (last - first - 1) / step + 1 else 0) in
  (fun k : nat => first + Z.of_nat k * step) <$> seq 0 (Z.to_nat count).

(** A [DeprecationWarning] that a call hands to [warnings.warn]. *)
Definition Warned (A : Type) : Type := (list string * A)%type.

Section Collection.

(** [replicate.model.Model] *)
Variable Model : Type.

Record Collection : Type := mkCollection {
  slug : string;
  name : string;
  description : string;
  models : option (list Model)
}.

(** What [__getitem__] hands back: [None], one model, or the list a slice
    selects. *)
Inductive Item : Type :=
| ItemNone
| ItemModel (m : Model)
| ItemModels (l : list Model).

(** [l[index]] on a Python [list]. *)
Definition list_getitem (l : list Model) (index : Index) : Result Item :=
  let len := Z.of_nat (length l) in
  match index with
  | IdxInt i =>
      let i := if i <? 0 then i + len else i in
      if ((i <? 0) || (len <=? i))%bool then Raise IndexError
      else match l !! Z.to_nat i with
           | Some m => Return (ItemModel m)
           | None => Raise IndexError
           end
  | IdxSlice start stop step =>
      let step := default 1 step in
      if step =? 0 then Raise (ValueError "slice step cannot be zero")
      else Return (ItemModels
                     (omap (fun i => l !! Z.to_nat i)
                           (slice_positions len start stop step)))
  | IdxOther => Raise TypeError
  end.

(** The deprecated property [id]: the decorator warns, then the body
    runs. *)
Definition Collection_id (self : Collection) : Warned string :=
  (["Use `slug` instead of `id`"], slug self).

Definition Collection_iter (self : Collection) : Result (list Model) :=
  match models self with
  | Some l => Return l
  | None => Raise TypeError
  end.

Definition Collection_getitem (self : Collection) (index : Index) : Result Item :=
  match models self with
  | Some l => list_getitem l index
  | None => Return ItemNone
  end.

Definition Collection_len (self : Collection) : Result Z :=
  match models self with
  | Some l => Return (Z.of_nat (length l))
  | None => Return 0
  end.

(** The [cursor] argument of [Collections.list]: the default [...], the
    value [None], or a [str]. *)
Inductive Cursor : Type :=
| CursorEllipsis
| CursorNone
| CursorStr (s : string).

Variable version : string.

(** The constructor of [Collection] applied to the entries of a [dict] as
    keyword arguments; [Resource] provides it and validates the fields. *)
Variable Collection_new : gmap string Json -> Result Collection.

(** [replicate.pagination.Page] and the constructor of [Page[Collection]]
    applied to the entries of [obj], given the converted [results] and the
    decoded object. *)
Variable Page : Type.
Variable Page_new : list Collection -> gmap string Json -> Result Page.

(** The same construction from an arbitrary decoded value: only a mapping
    can be unpacked into keyword arguments. *)
Definition Collection_of (result : Json) : Result Collection :=
  match result with
  | JObj fields => Collection_new fields
  | _ => Raise TypeError
  end.

(** One [Collection] for each [result] in a list. *)
Fixpoint Collection_each (results : list Json) : Result (list Collection) :=
  match results with
  | [] => Return []
  | result :: rest =>
      c ← Collection_of result;
      cs ← Collection_each rest;
      mret (c :: cs)
  end.

(** The comprehension over a decoded value: a list gives its items, a
    [dict] its keys, a [str] its characters; the others are not
    iterable. *)
Definition Collection_all (results : Json) : Result (list Collection) :=
  match results with
  | JArr items => Collection_each items
  | JObj fields => if bool_decide (fields = ∅) then Return [] else Raise TypeError
  | JStr s => if bool_decide (s = "") then Return [] else Raise TypeError
  | _ => Raise TypeError
  end.

Definition Collections_list (_client : Client) (environ : gmap string string)
    (server : Server) (cursor : Cursor) : M Page :=
  match cursor with
  | CursorNone => raise (ValueError "cursor cannot be None")
  | _ =>
      resp ← _request version _client environ server "GET"
               (match cursor with CursorStr s => s | _ => "/v1/collections" end)
               no_kwargs;
      obj ← lift (json resp);
      results ← lift (getitem obj "results");
      results ← lift (Collection_all results);
      match obj with
      | JObj fields => lift (Page_new results fields)
      | _ => raise TypeError
      end
  end.

Definition Collections_get (_client : Client) (environ : gmap string string)
    (server : Server) (slug : string) : M Collection :=
  resp ← _request version _client environ server "GET"
           ("/v1/collections/" +:+ slug) no_kwargs;
  obj ← lift (json resp);
  lift (Collection_of obj).

End Collection.

Arguments ItemNone {Model}.
Arguments ItemModel {Model} m.
Arguments ItemModels {Model} l.
Arguments mkCollection {Model} slug name description models.
Arguments slug {Model} c.
Arguments name {Model} c.
Arguments description {Model} c.
Arguments models {Model} c.
Arguments list_getitem {Model} l index.
Arguments Collection_id {Model} self.
Arguments Collection_iter {Model} self.
Arguments Collection_getitem {Model} self index.
Arguments Collection_len {Model} self.
Arguments Collections_list {Model} version Collection_new {Page} Page_new
  _client environ server cursor.
Arguments Collections_get {Model} version Collection_new _client environ server slug.

(** * Vocabulary of the statements *)

Section Retrying.

Import urllib3.

Variable server : Server.
Variable rq : Request.

(** The policy after [k] more increments. *)
Definition advance (r : Retry) (k : nat) : Retry :=
  {| total := total r - Z.of_nat k;
     backoff_factor := backoff_factor r;
     method_whitelist := method_whitelist r;
     status_forcelist := status_forcelist r;
     history := (history r + k)%nat |}.

(** The sleeps of [k] successive retries when no response carries a
    [Retry-After] header. *)
Fixpoint backoffs (r : Retry) (k : nat) : list Z :=
  match k with
  | O => []
  | S k' =>
      let b := get_backoff_time (advance r 1) in
      (if b <=? 0 then [] else [b]) ++ backoffs (advance r 1) k'
  end.

(** The world after [k] transmissions of [rq] and the given sleeps. *)
Definition after (w : World) (k : nat) (delays : list Z) : World :=
  {| sent := sent w ++ replicate k rq; slept := slept w ++ delays |}.

(** The response to the transmission that comes [i] after those of [w]. *)
Definition response_at (w : World) (i : nat) : Response :=
  server rq (length (sent w) + i)%nat.

(** A response that the policy retries on its status alone, and that sets
    no delay of its own. *)
Definition forced (r : Retry) (resp : Response) : Prop :=
  _is_method_retryable r (req_method rq) = true
  /\ status_code resp ∈ status_forcelist r
  /\ retry_after resp = None.

Definition retried (r : Retry) (resp : Response) : bool :=
  is_retry r (req_method rq) (status_code resp)
    (bool_decide (is_Some (retry_after resp))).

(** [HTTPAdapter.send] for a prepared request: [urlopen] with the fuel
    that [Session_request] gives it, and [MaxRetryError] turned into
    [RetryError]. *)
Definition send (r : Retry) : M Response :=
  try_except
    (urlopen (S (Z.to_nat (total r))) server rq r)
    (fun e => match e with MaxRetryError => raise RetryError | _ => raise e end).

End Retrying.

Section Wire.

Variable version : string.
Variable self : Client.
Variable token : string.

(** The headers that [_headers] returns for a resolved token. *)
Definition auth_headers : gmap string string :=
  {[ "Authorization" := "Token " +:+ token;
     "User-Agent" := "replicate-python@" +:+ version ]}.

(** The session that [_request] picks for a method. *)
Definition session_of (method : string) : Session :=
  if bool_decide (method ∈ ["POST"; "PUT"; "DELETE"; "PATCH"])
  then write_session self else read_session self.

(** The request that [_request] transmits. *)
Definition blocking_request (method path : string) (kwargs : Kwargs) : Request :=
  {| req_method := upper method;
     req_url := base_url self +:+ path;
     req_headers := auth_headers ∪ default ∅ (headers kwargs);
     follow := default (negb (bool_decide (method = "HEAD"))) (allow_redirects kwargs);
     req_extra := extra kwargs |}.

(** The request that [_request_async] transmits. *)
Definition async_request (method path : string) (kwargs : Kwargs) : Request :=
  {| req_method := upper method;
     req_url := base_url self +:+ path;
     req_headers := auth_headers ∪ default ∅ (headers kwargs);
     follow := true;
     req_extra := extra kwargs |}.

End Wire.

(** The statuses in [status_forcelist] of the read policy. *)
Definition read_statuses : list Z :=
  [429; 500; 502; 503; 504; 520; 521; 522; 523; 524; 526; 527].

(** The delays between the transmissions of a request that is retried five
    times: the first retry is immediate. *)
Definition backoff_delays : list Z := [4; 8; 16; 32].

(** The statuses that the status check turns into an error. *)
Definition is_error (status : Z) : Prop := 400 <= status < 600.

(** The body gives no [detail]: it is not JSON, or it is an object without
    that key. *)
Definition no_detail (resp : Response) : Prop :=
  json_body resp = None
  \/ exists fields, json_body resp = Some (JObj fields) /\ fields !! "detail" = None.

(** Printable ASCII text without a backslash or a single quote: the text
    that [repr] only wraps in single quotes. *)
Definition plain_char (c : ascii) : bool :=
  let n := nat_of_ascii c in
  (Nat.leb 32 n && Nat.ltb n 127 && negb (Nat.eqb n 92) && negb (Nat.eqb n 39))%bool.

Fixpoint plain_text (s : string) : bool :=
  match s with
  | EmptyString => true
  | String c s' => (plain_char c && plain_text s')%bool
  end.

(** ** Calls that the HTTP libraries accept, answers that end an exchange *)

Fixpoint all_chars (p : ascii -> bool) (s : string) : bool :=
  match s with
  | EmptyString => true
  | String c s' => (p c && all_chars p s')%bool
  end.

Definition nonempty_text (s : string) : bool :=
  match s with EmptyString => false | String _ _ => true end.

(** Visible ASCII: the characters both libraries take in a header value. *)
Definition visible_char (c : ascii) : bool :=
  let n := nat_of_ascii c in (Nat.leb 33 n && Nat.leb n 126)%bool.

Definition digit_char (c : ascii) : bool :=
  let n := nat_of_ascii c in (Nat.leb 48 n && Nat.leb n 57)%bool.

Definition lower_char (c : ascii) : bool :=
  let n := nat_of_ascii c in (Nat.leb 97 n && Nat.leb n 122)%bool.

Definition upper_char (c : ascii) : bool :=
  let n := nat_of_ascii c in (Nat.leb 65 n && Nat.leb n 90)%bool.

Definition letter_char (c : ascii) : bool := (lower_char c || upper_char c)%bool.

(** Header names: letters, digits and the hyphen. *)
Definition name_char (c : ascii) : bool :=
  (letter_char c || digit_char c || Ascii.eqb c "-")%bool.

(** Host names: lower-case letters, digits, dot and hyphen. *)
Definition host_char (c : ascii) : bool :=
  (lower_char c || digit_char c || Ascii.eqb c "." || Ascii.eqb c "-")%bool.

(** Paths with a query: unreserved characters, the slash and [?], [=],
    [&]. *)
Definition path_char (c : ascii) : bool :=
  (letter_char c || digit_char c
   || Ascii.eqb c "-" || Ascii.eqb c "." || Ascii.eqb c "_" || Ascii.eqb c "~"
   || Ascii.eqb c "/" || Ascii.eqb c "?" || Ascii.eqb c "=" || Ascii.eqb c "&")%bool.

(** [s] without its prefix [p]. *)
Fixpoint strip_prefix (p s : string) : option string :=
  match p, s with
  | EmptyString, _ => Some s
  | String a p', String b s' => if Ascii.eqb a b then strip_prefix p' s' else None
  | String _ _, EmptyString => None
  end.

Definition host_name (host : string) : bool :=
  match host with
  | EmptyString => false
  | String c _ => ((lower_char c || digit_char c) && all_chars host_char host)%bool
  end.

(** A base URL that is a scheme and a host: [http://host] or
    [https://host]. *)
Definition http_origin (base : string) : bool :=
  match strip_prefix "https://" base with
  | Some host => host_name host
  | None =>
      match strip_prefix "http://" base with
      | Some host => host_name host
      | None => false
      end
  end.

(** A path under a base URL: a slash followed by path characters. *)
Definition url_path (path : string) : bool :=
  match path with
  | EmptyString => false
  | String c rest => (Ascii.eqb c "/" && all_chars path_char rest)%bool
  end.

(** The methods of the API, in any letter case. *)
Definition http_method (method : string) : bool :=
  bool_decide (upper method ∈ ["GET"; "HEAD"; "OPTIONS"; "POST"; "PUT"; "PATCH"; "DELETE"]).

(** Headers of the caller that both libraries send as one header each:
    well-formed names and values, no two names equal up to letter case, and
    no name that is [Authorization] or [User-Agent] in another letter
    case. *)
Definition plain_headers (h : gmap string string) : Prop :=
  map_Forall (fun key value =>
                (nonempty_text key && all_chars name_char key
                 && nonempty_text value && all_chars visible_char value)%bool = true
                /\ (upper key = "AUTHORIZATION" -> key = "Authorization")
                /\ (upper key = "USER-AGENT" -> key = "User-Agent")) h
  /\ NoDup (upper <$> (map_to_list h).*1).

(** A call that both [requests] and [httpx] accept and send to the origin
    of the base URL: a token and a version of visible ASCII, one of the
    seven methods, a base URL that is a scheme and a host, a path under it,
    plain headers and no keyword argument besides [headers] and
    [allow_redirects]. *)
Definition wellformed_call (version : string) (self : Client)
    (token method path : string) (kwargs : Kwargs) : Prop :=
  all_chars visible_char token = true
  /\ all_chars visible_char version = true
  /\ http_method method = true
  /\ http_origin (base_url self) = true
  /\ url_path path = true
  /\ plain_headers (default ∅ (headers kwargs))
  /\ extra kwargs = ∅.

(** The statuses that make a library follow a [Location] header. *)
Definition redirect_statuses : list Z := [301; 302; 303; 307; 308].

(** A status that ends an exchange: 200 to 599 and no redirect. *)
Definition final_status (status : Z) : Prop :=
  200 <= status < 600 /\ status ∉ redirect_statuses.

(** No answer of the service to a request is a redirect. *)
Definition no_redirect (server : Server) (rq : Request) : Prop :=
  forall i, status_code (server rq i) ∉ redirect_statuses.

(** ** Sample data *)

(** A stand-in for the builtin [float] that knows the default poll
    interval. *)
Definition sample_float (s : string) : Result PyFloat :=
  if bool_decide (s = "0.5") then Return (FFinite 1 (-1))
  else Raise (ValueError ("could not convert string to float: " +:+ repr_str s)).

(** The client that [__init__] builds without arguments in an environment
    that sets nothing. *)
Definition sample_client : Client :=
  {| api_token := None;
     base_url := "https://api.replicate.com";
     poll_interval := FFinite 1 (-1);
     httpx_transport := {| retries := 5 |};
     read_session := {| max_retries := read_retries |};
     write_session := {| max_retries := write_retries |} |}.

(** An environment that sets nothing. *)
Definition empty_environ : gmap string string := ∅.

Definition sample_environ : gmap string string :=
  {[ "REPLICATE_API_TOKEN" := "r8_sample" ]}.

Definition sample_version : string := "0.0.1".

(** A service that gives the same answer to every transmission. *)
Definition always (resp : Response) : Server := fun _ _ => resp.


Definition plain (status : Z) (reason : string) : Response :=
  {| status_code := status; reason := reason; json_body := None; retry_after := None |}.

Definition with_json (status : Z) (reason : string) (body : Json) : Response :=
  {| status_code := status; reason := reason; json_body := Some body; retry_after := None |}.


Definition ok : Response := with_json 200 "OK" (JObj ∅).

(** A page without results. *)
Definition empty_page : Response :=
  with_json 200 "OK" (JObj {[ "results" := JArr [] ]}).



(** A collection whose [models] field is absent. *)
Definition sample_collection : Collection string :=
  {| slug := "text-to-image";
     name := "Text to image";
     description := "Models that generate images from text prompts";
     models := None |}.

(** The outcome of a computation started in the empty world: the result,
    the number of transmissions and the sleeps. *)
Definition outcome {A} (m : M A) : option (Result A * nat * list Z) :=
  match m world0 with
  | Some (r, w) => Some (r, length (sent w), slept w)
  | None => None
  end.

(** * Properties *)

(** ** The model on small inputs *)

Example upper_get : upper "get" = "GET".
Proof. reflexivity. Qed.

Example repr_str_plain_text : repr_str "Not Found" = "'Not Found'".
Proof. reflexivity. Qed.

Example repr_str_single_quote :
  repr_str "I'm a teapot" = String double_quote ("I'm a teapot" +:+ String double_quote "").
Proof. reflexivity. Qed.

Example http_error_message_404 :
  http_error_message 404 "Not Found" = "HTTP error: (404, 'Not Found')".
Proof. reflexivity. Qed.

Example read_policy_get_500 : urllib3.is_retry read_retries "GET" 500 false = true.
Proof. reflexivity. Qed.

Example read_policy_head_500 : urllib3.is_retry read_retries "HEAD" 500 false = false.
Proof. reflexivity. Qed.

Example write_policy_post_500 : urllib3.is_retry write_retries "POST" 500 true = false.
Proof. reflexivity. Qed.

Example write_policy_post_503_retry_after :
  urllib3.is_retry write_retries "POST" 503 true = true.
Proof. reflexivity. Qed.

Example backoffs_of_five_retries : backoffs read_retries 5 = [4; 8; 16; 32].
Proof. reflexivity. Qed.

Example list_getitem_last :
  list_getitem ["a"; "b"; "c"] (IdxInt (-1)) = Return (ItemModel "c").
Proof. reflexivity. Qed.

Example list_getitem_out_of_range :
  list_getitem ["a"; "b"; "c"] (IdxInt 3) = Raise IndexError.
Proof. reflexivity. Qed.

Example list_getitem_slice :
  list_getitem ["a"; "b"; "c"; "d"] (IdxSlice (Some 1) None (Some 2))
  = Return (ItemModels ["b"; "d"]).
Proof. reflexivity. Qed.

Example list_getitem_reversed :
  list_getitem ["a"; "b"; "c"] (IdxSlice None None (Some (-1)))
  = Return (ItemModels ["c"; "b"; "a"]).
Proof. reflexivity. Qed.

(** ** The retry loop *)

Section Retrying_facts.

Import urllib3.

Variable server : Server.
Variable rq : Request.

Lemma advance_0 r : advance r 0 = r.
Proof.
  destruct r as [t b m s h]. unfold advance. simpl.
  f_equal; [lia | apply Nat.add_0_r].
Qed.

Lemma advance_S r k : advance (advance r 1) k = advance r (S k).
Proof. unfold advance. simpl. f_equal; lia. Qed.

Lemma after_0 w : after rq w 0 [] = w.
Proof. destruct w as [s d]. unfold after. simpl. by rewrite !app_nil_r. Qed.

Lemma after_sleep w d :
  after rq w 0 d = {| sent := sent w; slept := slept w ++ d |}.
Proof. unfold after. simpl. by rewrite app_nil_r. Qed.

Lemma after_after w k1 d1 k2 d2 :
  after rq (after rq w k1 d1) k2 d2 = after rq w (k1 + k2) (d1 ++ d2).
Proof. unfold after. simpl. by rewrite replicate_add, !app_assoc. Qed.

Lemma after_world0 k d :
  after rq world0 k d = {| sent := replicate k rq; slept := d |}.
Proof. reflexivity. Qed.

Lemma response_at_after w k d i :
  response_at server rq (after rq w k d) i = response_at server rq w (k + i).
Proof.
  unfold response_at, after. simpl.
  rewrite length_app, length_replicate. f_equal. lia.
Qed.

Lemma forced_retried r resp : forced rq r resp -> retried rq r resp = true.
Proof.
  intros (Hm & Hs & _). unfold retried, is_retry. rewrite Hm. simpl.
  rewrite (bool_decide_eq_true_2 _ Hs).
  destruct (status_forcelist r); [by apply elem_of_nil in Hs | done].
Qed.

Lemma not_retried_status r resp :
  status_code resp ∉ status_forcelist r ->
  retry_after resp = None \/ status_code resp ∉ RETRY_AFTER_STATUS_CODES ->
  retried rq r resp = false.
Proof.
  intros Hs Hh. unfold retried, is_retry.
  destruct (_is_method_retryable r (req_method rq)); [| done]. simpl.
  rewrite (bool_decide_eq_false_2 _ Hs), andb_false_r.
  destruct Hh as [-> | Hh].
  - by rewrite andb_false_r.
  - by rewrite (bool_decide_eq_false_2 _ Hh), andb_false_r.
Qed.

Lemma not_retried_method r resp :
  _is_method_retryable r (req_method rq) = false -> retried rq r resp = false.
Proof. intros H. unfold retried, is_retry. by rewrite H. Qed.

(** One turn of [urlopen]. *)
Lemma urlopen_S fuel r w :
  urlopen (S fuel) server rq r w =
    let resp := response_at server rq w 0 in
    let w1 := after rq w 1 [] in
    if retried rq r resp then
      match increment r with
      | Return r' => (sleep r' resp;; urlopen fuel server rq r') w1
      | Raise e => Some (Raise e, w1)
      end
    else Some (Return resp, w1).
Proof.
  unfold response_at, after, retried. simpl.
  rewrite Nat.add_0_r, app_nil_r.
  unfold mbind at 1, M_bind, transmit. simpl.
  destruct (is_retry _ _ _ _); [| done].
  destruct (increment r); done.
Qed.

Lemma sleep_no_header r resp w :
  retry_after resp = None ->
  sleep r resp w =
    Some (Return tt,
          after rq w 0 (if get_backoff_time r <=? 0 then [] else [get_backoff_time r])).
Proof.
  intros H. unfold sleep. rewrite H. simpl.
  destruct (get_backoff_time r <=? 0).
  - by rewrite after_0.
  - by rewrite after_sleep.
Qed.

Lemma sleep_total r resp w :
  exists d, sleep r resp w = Some (Return tt, after rq w 0 d).
Proof.
  unfold sleep.
  destruct (0 <? _).
  - eexists [_]. by rewrite after_sleep.
  - destruct (_ <=? 0).
    + exists []. by rewrite after_0.
    + eexists [_]. by rewrite after_sleep.
Qed.

Lemma increment_pos r :
  1 <= total r -> increment r = Return (advance r 1).
Proof.
  intros H. unfold increment, is_exhausted, advance. simpl.
  replace (total r - 1 <? 0) with false by (symmetry; apply Z.ltb_ge; lia).
  rewrite andb_false_r. f_equal. f_equal; lia.
Qed.

Lemma increment_nonpos r :
  total r <= 0 -> increment r = Raise MaxRetryError.
Proof.
  intros H. unfold increment, is_exhausted. simpl.
  replace (total r - 1 <? 0) with true by (symmetry; apply Z.ltb_lt; lia).
  replace (total r - 1 =? 0) with false by (symmetry; apply Z.eqb_neq; lia).
  done.
Qed.

(** [k] forced responses in a row cost [k] transmissions and the backoff
    sleeps, and leave the loop where it would be with [k] fewer retries. *)
Lemma urlopen_forced k : forall fuel r w,
  Z.of_nat k <= total r ->
  (forall i, (i < k)%nat -> forced rq r (response_at server rq w i)) ->
  urlopen (k + fuel) server rq r w =
    urlopen fuel server rq (advance r k) (after rq w k (backoffs r k)).
Proof.
  induction k as [|k IH]; intros fuel r w Hk Hf.
  - simpl. by rewrite after_0, advance_0.
  - replace (S k + fuel)%nat with (S (k + fuel)) by lia.
    rewrite urlopen_S. simpl.
    assert (H0 : forced rq r (response_at server rq w 0)) by (apply Hf; lia).
    rewrite (forced_retried _ _ H0).
    rewrite increment_pos by lia.
    unfold mbind, M_bind.
    rewrite sleep_no_header by apply H0.
    rewrite after_after. simpl.
    rewrite IH.
    + rewrite advance_S, after_after. simpl. do 2 f_equal.
    + unfold advance. simpl. lia.
    + intros i Hi. rewrite response_at_after.
      apply (Hf (S i)). lia.
Qed.

(** A response that is not retried ends the loop. *)
Lemma urlopen_stop fuel r w :
  retried rq r (response_at server rq w 0) = false ->
  urlopen (S fuel) server rq r w =
    Some (Return (response_at server rq w 0), after rq w 1 []).
Proof. intros H. rewrite urlopen_S. simpl. by rewrite H. Qed.


(** With fuel above [total] the loop ends, after at most [total] retries,
    and every transmission is the same request. *)
Lemma urlopen_total fuel : forall r w,
  (Z.to_nat (total r) < fuel)%nat ->
  exists res n d,
    urlopen fuel server rq r w = Some (res, after rq w (S n) d)
    /\ (n <= Z.to_nat (total r))%nat.
Proof.
  induction fuel as [|fuel IH]; intros r w Hf; [lia |].
  rewrite urlopen_S. simpl.
  destruct (retried rq r _).
  - destruct (Z_le_gt_dec (total r) 0) as [Hle | Hgt].
    + rewrite increment_nonpos by done.
      exists (Raise MaxRetryError), 0%nat, []. split; [done | lia].
    + rewrite increment_pos by lia.
      unfold mbind, M_bind.
      destruct (sleep_total (advance r 1) (response_at server rq w 0)
                  (after rq w 1 [])) as [d Hd].
      rewrite Hd.
      destruct (IH (advance r 1) (after rq (after rq w 1 []) 0 d))
        as (res & n & d' & Heq & Hn).
      { unfold advance. simpl. lia. }
      rewrite Heq. exists res, (S n), (d ++ d')%list.
      split.
      * rewrite !after_after. simpl. done.
      * unfold advance in Hn. simpl in Hn. lia.
  - exists (Return (response_at server rq w 0)), 0%nat, []. split; [done | lia].
Qed.

(** [send] always ends. *)
Lemma send_total r w :
  exists res n d,
    send server rq r w = Some (res, after rq w (S n) d)
    /\ (n <= Z.to_nat (total r))%nat.
Proof.
  destruct (urlopen_total (S (Z.to_nat (total r))) r w ltac:(lia))
    as (res & n & d & Heq & Hn).
  unfold send, try_except. rewrite Heq.
  destruct res as [resp | e].
  - by exists (Return resp), n, d.
  - destruct e; by eexists _, n, d.
Qed.

(** After [k] forced responses, one that is not retried is returned. *)
Lemma send_returns k r w :
  Z.of_nat k <= total r ->
  (forall i, (i < k)%nat -> forced rq r (response_at server rq w i)) ->
  retried rq (advance r k) (response_at server rq w k) = false ->
  send server rq r w =
    Some (Return (response_at server rq w k), after rq w (S k) (backoffs r k)).
Proof.
  intros Hk Hf Hstop. unfold send, try_except.
  replace (S (Z.to_nat (total r))) with (k + S (Z.to_nat (total r) - k))%nat by lia.
  rewrite urlopen_forced by done.
  rewrite urlopen_stop; rewrite response_at_after, Nat.add_0_r; [| done].
  by rewrite after_after, app_nil_r, Nat.add_1_r.
Qed.


End Retrying_facts.

(** ** Text *)

Lemma upper_ascii_upper c : upper_ascii (upper_ascii c) = upper_ascii c.
Proof. destruct c as [[] [] [] [] [] [] [] []]; reflexivity. Qed.

Lemma upper_upper s : upper (upper s) = upper s.
Proof.
  induction s as [|c s IH]; [done |]. simpl. by rewrite upper_ascii_upper, IH.
Qed.


Lemma repr_char_plain c : plain_char c = true -> repr_char "'" c = String c EmptyString.
Proof.
  destruct c as [[] [] [] [] [] [] [] []]; vm_compute; congruence.
Qed.

Lemma contains_quote_plain s : plain_text s = true -> contains_char "'" s = false.
Proof.
  induction s as [|c s IH]; [done |]. simpl.
  intros [Hc Hs]%andb_prop. rewrite (IH Hs), orb_false_r.
  destruct c as [[] [] [] [] [] [] [] []]; vm_compute in Hc |- *; congruence.
Qed.

Lemma repr_chars_plain s : plain_text s = true -> repr_chars "'" s = s.
Proof.
  induction s as [|c s IH]; [done |]. simpl.
  intros [Hc Hs]%andb_prop. by rewrite (repr_char_plain _ Hc), (IH Hs).
Qed.

Lemma repr_str_plain s : plain_text s = true -> repr_str s = "'" +:+ s +:+ "'".
Proof.
  intros H. unfold repr_str. rewrite (contains_quote_plain _ H). simpl.
  by rewrite (repr_chars_plain _ H).
Qed.

Lemma append_assoc (s1 s2 s3 : string) : (s1 +:+ s2) +:+ s3 = s1 +:+ s2 +:+ s3.
Proof.
  induction s1 as [|c s1 IH]; [reflexivity |].
  change (String c ((s1 +:+ s2) +:+ s3) = String c (s1 +:+ s2 +:+ s3)).
  by f_equal.
Qed.

(** For a plain reason phrase the fallback message shows the status code in
    decimal and the reason phrase as it is. *)
Lemma http_error_message_plain status reason :
  plain_text reason = true ->
  http_error_message status reason =
    "HTTP error: (" +:+ pretty status +:+ ", '" +:+ reason +:+ "')".
Proof.
  intros H. unfold http_error_message, repr_int. rewrite (repr_str_plain _ H).
  by rewrite !append_assoc.
Qed.

(** ** The status check *)

Section Check_status.

Variable lib : Library.
Variable resp : Response.
Variable w : World.

Lemma is_error_test status :
  is_error status -> ((400 <=? status) && (status <? 600))%bool = true.
Proof. unfold is_error. intros H. apply andb_true_intro. split; lia. Qed.

Lemma not_error_test status :
  ~ is_error status -> ((400 <=? status) && (status <? 600))%bool = false.
Proof. unfold is_error. intros H. apply andb_false_iff. lia. Qed.

(** The check consumes no transmission and no sleep. *)
Lemma check_status_world : exists res, check_status lib resp w = Some (res, w).
Proof.
  unfold check_status.
  destruct (_ && _)%bool; [| by eexists].
  unfold mbind, M_bind, try_except, lift, json. 
  destruct (json_body resp) as [[| | | | | | fields] |]; simpl;
    try (by eexists).
  - destruct (fields !! "detail"); simpl; [by eexists |].
    destruct lib; by eexists.
  - destruct lib; by eexists.
Qed.

Lemma check_status_ok :
  ~ is_error (status_code resp) -> check_status lib resp w = Some (Return resp, w).
Proof. intros H. unfold check_status. by rewrite (not_error_test _ H). Qed.

Lemma check_status_detail fields detail :
  is_error (status_code resp) ->
  json_body resp = Some (JObj fields) ->
  fields !! "detail" = Some detail ->
  check_status lib resp w = Some (Raise (ReplicateError detail), w).
Proof.
  intros H Hj Hd. unfold check_status. rewrite (is_error_test _ H).
  unfold mbind, M_bind, try_except, lift, json. rewrite Hj. simpl.
  by rewrite Hd.
Qed.

Lemma check_status_not_object v :
  is_error (status_code resp) ->
  json_body resp = Some v ->
  (forall fields, v <> JObj fields) ->
  check_status lib resp w = Some (Raise TypeError, w).
Proof.
  intros H Hj Hv. unfold check_status. rewrite (is_error_test _ H).
  unfold mbind, M_bind, try_except, lift, json. rewrite Hj.
  destruct v; try done. by destruct (Hv fields).
Qed.

Lemma check_status_no_detail :
  is_error (status_code resp) ->
  no_detail resp ->
  check_status lib resp w =
    match attr_reason lib resp with
    | Return reason =>
        Some (Raise (ReplicateError (JStr (http_error_message (status_code resp) reason))), w)
    | Raise e => Some (Raise e, w)
    end.
Proof.
  intros H Hn. unfold check_status. rewrite (is_error_test _ H).
  unfold mbind, M_bind, try_except, lift, json.
  destruct Hn as [-> | (fields & -> & Hd)]; simpl.
  - by destruct (attr_reason lib resp).
  - rewrite Hd. simpl. by destruct (attr_reason lib resp).
Qed.

End Check_status.


(** ** What [_request] and [_request_async] put on the wire *)

Section Wire_facts.

Variable version : string.
Variable self : Client.
Variable token : string.
Variable environ : gmap string string.
Hypothesis Htoken : _api_token self environ = Return token.

Lemma _request_run server method path kwargs w :
  _request version self environ server method path kwargs w =
    (resp ← send server (blocking_request version self token method path kwargs)
              (max_retries (session_of self method));
     check_status Requests resp) w.
Proof.
  unfold _request, _headers. rewrite Htoken. simpl.
  unfold mbind at 1, M_bind at 1, lift.
  unfold Session_request, send, blocking_request, session_of.
  destruct (decide (method = "HEAD")) as [-> | Hne].
  - destruct kwargs as [[b|] hs ex]; reflexivity.
  - rewrite (bool_decide_eq_false_2 (method ∈ ["HEAD"]))
      by (by intros ?%list_elem_of_singleton).
    rewrite (bool_decide_eq_false_2 (method = "HEAD")) by done.
    destruct (bool_decide (method ∈ ["GET"; "OPTIONS"]));
      destruct kwargs as [[b|] hs ex]; reflexivity.
Qed.

Lemma _request_async_run server method path kwargs w :
  _request_async version self environ server method path kwargs w =
    (resp ← transmit server (async_request version self token method path kwargs);
     check_status Httpx resp) w.
Proof.
  unfold _request_async, _headers. rewrite Htoken. simpl.
  unfold mbind at 1, M_bind at 1, lift.
  unfold AsyncClient_request, async_request.
  destruct (bool_decide (method ∈ ["GET"; "OPTIONS"]));
    destruct (bool_decide (method ∈ ["HEAD"]));
    destruct kwargs as [[b|] hs ex]; reflexivity.
Qed.

(** The blocking path ends for every service, after one transmission and
    at most [total] more of the same request. *)
Lemma _request_total server method path kwargs w :
  exists res n d,
    _request version self environ server method path kwargs w =
      Some (res, after (blocking_request version self token method path kwargs) w (S n) d)
    /\ (n <= Z.to_nat (urllib3.total (max_retries (session_of self method))))%nat.
Proof.
  rewrite _request_run.
  destruct (send_total server (blocking_request version self token method path kwargs)
              (max_retries (session_of self method)) w)
    as (res & n & d & Heq & Hn).
  unfold mbind, M_bind. rewrite Heq.
  destruct res as [resp | e].
  - destruct (check_status_world Requests resp
                (after (blocking_request version self token method path kwargs) w (S n) d))
      as [res' Hres].
    rewrite Hres. by exists res', n, d.
  - by exists (Raise e), n, d.
Qed.

(** The non-blocking path ends after exactly one transmission. *)
Lemma _request_async_total server method path kwargs w :
  exists res,
    _request_async version self environ server method path kwargs w =
      Some (res, after (async_request version self token method path kwargs) w 1 []).
Proof.
  rewrite _request_async_run.
  unfold mbind, M_bind, transmit.
  match goal with |- context [check_status Httpx ?r ?w'] =>
    destruct (check_status_world Httpx r w') as [res Hres]; rewrite Hres
  end.
  exists res. unfold after. simpl. by rewrite app_nil_r.
Qed.

End Wire_facts.

(** Without a token neither path transmits anything. *)
Lemma no_token_no_request version self environ e :
  _api_token self environ = Raise e ->
  forall server method path kwargs w,
    _request version self environ server method path kwargs w = Some (Raise e, w)
    /\ _request_async version self environ server method path kwargs w = Some (Raise e, w).
Proof.
  intros H server method path kwargs w.
  unfold _request, _request_async, _headers. rewrite H. simpl.
  by unfold mbind, M_bind, lift.
Qed.

(** ** What [__init__] builds *)

Lemma init_fields float explicit environ self :
  __init__ float explicit environ = Return self ->
  api_token self = explicit
  /\ base_url self = default "https://api.replicate.com" (environ !! "REPLICATE_API_BASE_URL")
  /\ float (default "0.5" (environ !! "REPLICATE_POLL_INTERVAL")) = Return (poll_interval self)
  /\ read_session self = {| max_retries := read_retries |}
  /\ write_session self = {| max_retries := write_retries |}
  /\ httpx_transport self = {| retries := 5 |}.
Proof.
  unfold __init__. unfold mbind, Result_bind.
  destruct (float _) as [p | e]; [| done].
  intros [= <-]. done.
Qed.

Lemma backoffs_read k :
  (k <= 5)%nat -> backoffs read_retries k = take (k - 1) backoff_delays.
Proof.
  intros H. do 6 (destruct k as [|k]; [reflexivity |]). lia.
Qed.

Lemma backoffs_write k :
  (k <= 5)%nat -> backoffs write_retries k = take (k - 1) backoff_delays.
Proof.
  intros H. do 6 (destruct k as [|k]; [reflexivity |]). lia.
Qed.

(** * The claims *)

Ltac by_computation := apply (bool_decide_unpack _); vm_compute; exact I.

Ltac wellformed :=
  unfold wellformed_call, plain_headers, final_status, no_redirect;
  repeat apply conj; try reflexivity;
  try (apply (bool_decide_unpack _); vm_compute; exact I).

Ltac split_elem H :=
  repeat (apply elem_of_cons in H as [-> | H]); [.. | by apply elem_of_nil in H].

(** ** Retry policies (C1, C2) *)

Section Policies.

Variable float : string -> Result PyFloat.
Variable version : string.
Variable explicit : option string.
Variables startup environ : gmap string string.
Variable self : Client.
Variable token : string.
Variable server : Server.
Variable path : string.
Variable kwargs : Kwargs.

Hypothesis Hinit : __init__ float explicit startup = Return self.
Hypothesis Htoken : _api_token self environ = Return token.

Local Abbreviation request method :=
  (blocking_request version self token method path kwargs).

Local Abbreviation run method :=
  (_request version self environ server method path kwargs world0).



End Policies.

Lemma sample_client_init : __init__ sample_float None empty_environ = Return sample_client.
Proof. reflexivity. Qed.

Lemma sample_token : _api_token sample_client sample_environ = Return "r8_sample".
Proof. reflexivity. Qed.







(** ** Error normalisation (C3) *)

(** The parts of C3 that hold on the blocking path: a response outside
    400-599 is returned; an error response whose body is a JSON object with
    a [detail] entry raises [ReplicateError] with that value; and one whose
    body is not JSON, or is an object without [detail], raises
    [ReplicateError] with the text built from the status code and the reason
    phrase. *)
Lemma check_status_blocking resp w :
  (~ is_error (status_code resp) ->
     check_status Requests resp w = Some (Return resp, w))
  /\ (forall fields detail,
        is_error (status_code resp) ->
        json_body resp = Some (JObj fields) ->
        fields !! "detail" = Some detail ->
        check_status Requests resp w = Some (Raise (ReplicateError detail), w))
  /\ (is_error (status_code resp) ->
      no_detail resp ->
      plain_text (reason resp) = true ->
      check_status Requests resp w =
        Some (Raise (ReplicateError (JStr
                ("HTTP error: (" +:+ pretty (status_code resp) +:+ ", '"
                   +:+ reason resp +:+ "')"))), w)).
Proof.
  split; [apply check_status_ok |]. split.
  - intros fields detail. apply check_status_detail.
  - intros He Hn Hp. rewrite check_status_no_detail by done. simpl.
    by rewrite http_error_message_plain.
Qed.

(** C3 fails where the body is JSON but not an object: for the body [[]]
    the subscript [["detail"]] raises [TypeError], which the [except] clause
    does not name, so the call ends in [TypeError] and not in a
    [ReplicateError] that shows the status code and the reason phrase.  On
    the non-blocking path the fallback itself fails: the response object has
    no attribute [reason], and a body that is not JSON ends in
    [AttributeError]. *)
Theorem C3_json_array_body_raises_type_error :
  outcome (_request sample_version sample_client sample_environ
             (always (with_json 400 "Bad Request" (JArr [])))
             "GET" "/v1/predictions" no_kwargs)
    = Some (Raise TypeError, 1%nat, [])
  /\ outcome (_request_async sample_version sample_client sample_environ
                (always (plain 404 "Not Found"))
                "GET" "/v1/predictions/p1" no_kwargs)
     = Some (Raise AttributeError, 1%nat, []).
Proof. split; reflexivity. Qed.

(** ** The two request paths (C4) *)




(** ** Token and configuration (C5, C7) *)

(** C5.  The token is resolved when a call is made, from the environment of
    that moment: the value given to the constructor when it is a non-empty
    string, otherwise (no value given) the value of [REPLICATE_API_TOKEN];
    when neither gives a non-empty string the call fails with the error of
    the missing token, on either path and before anything is transmitted.
    An empty string given to the constructor is not replaced by the
    environment, and fails too.  The environment at construction plays no
    part. *)
Theorem C5_token_is_resolved_at_call_time
    (float : string -> Result PyFloat) (version : string) (explicit : option string)
    (startup environ : gmap string string) (self : Client) :
  __init__ float explicit startup = Return self ->
  (forall t, explicit = Some t -> t <> "" -> _api_token self environ = Return t)
  /\ (forall t, explicit = None -> environ !! "REPLICATE_API_TOKEN" = Some t -> t <> "" ->
        _api_token self environ = Return t)
  /\ (explicit = None \/ explicit = Some "" ->
      environ !! "REPLICATE_API_TOKEN" = None \/ environ !! "REPLICATE_API_TOKEN" = Some "" ->
      _api_token self environ = Raise (ReplicateError (JStr no_token_message))
      /\ forall server method path kwargs w,
           _request version self environ server method path kwargs w
             = Some (Raise (ReplicateError (JStr no_token_message)), w)
           /\ _request_async version self environ server method path kwargs w
              = Some (Raise (ReplicateError (JStr no_token_message)), w))
  /\ (explicit = Some "" ->
      _api_token self environ = Raise (ReplicateError (JStr no_token_message))).
Proof.
  intros Hinit.
  destruct (init_fields _ _ _ _ Hinit) as (Htok & _).
  split; [| split; [| split]].
  - intros t -> Hne. unfold _api_token. rewrite Htok. by destruct t.
  - intros t -> Henv Hne. unfold _api_token. rewrite Htok, Henv. by destruct t.
  - intros Hex Henv.
    assert (Hfail : _api_token self environ = Raise (ReplicateError (JStr no_token_message))).
    { unfold _api_token. rewrite Htok.
      destruct Hex as [-> | ->]; [| done].
      by destruct Henv as [-> | ->]. }
    split; [exact Hfail |].
    intros server method path kwargs w.
    by apply no_token_no_request.
  - intros ->. unfold _api_token. by rewrite Htok.
Qed.

(** C5 at a client built while the environment sets nothing: a call made
    once [REPLICATE_API_TOKEN] is set uses that token, and a call made
    while it is still unset fails. *)
Lemma C5_token_is_resolved_at_call_time_witness :
  _api_token sample_client sample_environ = Return "r8_sample"
  /\ _api_token sample_client empty_environ
     = Raise (ReplicateError (JStr no_token_message)).
Proof.
  split.
  - destruct (C5_token_is_resolved_at_call_time
                sample_float sample_version None empty_environ sample_environ
                sample_client ltac:(reflexivity))
      as (_ & Henv & _).
    apply Henv; [reflexivity | reflexivity | discriminate].
  - destruct (C5_token_is_resolved_at_call_time
                sample_float sample_version None empty_environ empty_environ
                sample_client ltac:(reflexivity))
      as (_ & _ & Hfail & _).
    apply Hfail; left; reflexivity.
Defined.

(** C7, as stated, fails for the base URL (and in the same way for the poll
    interval): the constructor has one argument, the token, and whatever it
    is given the base URL is the one of the environment. *)
Lemma C7_base_url_has_no_constructor_argument :
  ~ exists explicit self,
      __init__ sample_float explicit
        {[ "REPLICATE_API_BASE_URL" := "https://env.example" ]} = Return self
      /\ base_url self = "https://explicit.example".
Proof.
  intros (explicit & self & Hinit & Hurl).
  apply init_fields in Hinit as (_ & Hbase & _).
  rewrite Hbase in Hurl. vm_compute in Hurl. discriminate Hurl.
Qed.

(** C7 (amended).  The token can be given to the constructor and, when it
    is not, is read from [REPLICATE_API_TOKEN]; a non-empty value given to
    the constructor wins.  The base URL and the poll interval have no
    constructor argument: they are read from [REPLICATE_API_BASE_URL] and
    [REPLICATE_POLL_INTERVAL] at construction, with the defaults
    [https://api.replicate.com] and [0.5]. *)
Theorem C7_only_the_token_is_a_constructor_argument
    (float : string -> Result PyFloat) (explicit : option string)
    (startup : gmap string string) (self : Client) :
  __init__ float explicit startup = Return self ->
  base_url self = default "https://api.replicate.com" (startup !! "REPLICATE_API_BASE_URL")
  /\ float (default "0.5" (startup !! "REPLICATE_POLL_INTERVAL")) = Return (poll_interval self)
  /\ (forall other self',
        __init__ float other startup = Return self' ->
        base_url self' = base_url self /\ poll_interval self' = poll_interval self)
  /\ (forall environ t, explicit = Some t -> t <> "" -> _api_token self environ = Return t)
  /\ (forall environ t,
        explicit = None -> environ !! "REPLICATE_API_TOKEN" = Some t -> t <> "" ->
        _api_token self environ = Return t).
Proof.
  intros Hinit.
  destruct (init_fields _ _ _ _ Hinit) as (Htok & Hbase & Hpoll & _).
  split; [exact Hbase |]. split; [exact Hpoll |]. split; [| split].
  - intros other self' Hinit'.
    destruct (init_fields _ _ _ _ Hinit') as (_ & Hbase' & Hpoll' & _).
    split; [by rewrite Hbase, Hbase' |].
    rewrite Hpoll in Hpoll'. by injection Hpoll'.
  - intros environ t -> Hne. unfold _api_token. rewrite Htok. by destruct t.
  - intros environ t -> Henv Hne. unfold _api_token. rewrite Htok, Henv. by destruct t.
Qed.

(** The amended C7 at a client built with a token in an environment that
    sets the base URL and a token of its own. *)
Lemma C7_only_the_token_is_a_constructor_argument_witness :
  base_url
    {| api_token := Some "r8_explicit";
       base_url := "https://env.example";
       poll_interval := FFinite 1 (-1);
       httpx_transport := {| retries := 5 |};
       read_session := {| max_retries := read_retries |};
       write_session := {| max_retries := write_retries |} |}
  = "https://env.example"
  /\ _api_token
       {| api_token := Some "r8_explicit";
          base_url := "https://env.example";
          poll_interval := FFinite 1 (-1);
          httpx_transport := {| retries := 5 |};
          read_session := {| max_retries := read_retries |};
          write_session := {| max_retries := write_retries |} |}
       sample_environ
     = Return "r8_explicit".
Proof.
  destruct (C7_only_the_token_is_a_constructor_argument
              sample_float (Some "r8_explicit")
              {[ "REPLICATE_API_BASE_URL" := "https://env.example" ]}
              {| api_token := Some "r8_explicit";
                 base_url := "https://env.example";
                 poll_interval := FFinite 1 (-1);
                 httpx_transport := {| retries := 5 |};
                 read_session := {| max_retries := read_retries |};
                 write_session := {| max_retries := write_retries |} |})
    as (Hbase & _ & _ & Htoken & _).
  - reflexivity.
  - split.
    + reflexivity.
    + apply Htoken; [reflexivity | discriminate].
Defined.

(** ** Redirects (C8) *)




(** ** Collections (C6, C9, C10) *)

Section Collections_facts.

Variable Model : Type.
Variable version : string.
Variable Collection_new : gmap string Json -> Result (Collection Model).
Variable Page : Type.
Variable Page_new : list (Collection Model) -> gmap string Json -> Result Page.
Variable self : Client.
Variable environ : gmap string string.
Variable token : string.
Variable server : Server.

Hypothesis Htoken : _api_token self environ = Return token.

(** What follows the request in [list] neither transmits nor sleeps. *)
Lemma Collections_list_run cursor path w :
  cursor <> CursorNone ->
  path = match cursor with CursorStr s => s | _ => "/v1/collections" end ->
  exists res n d,
    Collections_list version Collection_new Page_new self environ server cursor w
      = Some (res, after (blocking_request version self token "GET" path no_kwargs) w (S n) d).
Proof.
  intros Hc ->.
  destruct (_request_total version self token environ Htoken server "GET"
              match cursor with CursorStr s => s | _ => "/v1/collections" end
              no_kwargs w)
    as (res & n & d & Heq & _).
  unfold Collections_list.
  destruct cursor as [| | s]; [| done |];
    unfold mbind, M_bind; rewrite Heq;
    (destruct res as [resp | e]; [| by eexists _, n, d]);
    unfold lift;
    (destruct (json resp) as [obj | e]; [| by eexists _, n, d]);
    (destruct (getitem obj "results") as [results | e]; [| by eexists _, n, d]);
    (destruct (Collection_all Model Collection_new results) as [cs | e];
       [| by eexists _, n, d]);
    destruct obj; by eexists _, n, d.
Qed.

End Collections_facts.

(** C6, as stated, fails for a cursor that is not a path: [list] appends the
    cursor to the base URL, so for the cursor [abc123] no request of the
    call goes to the cursor, nor to any URL under the base URL. *)
Lemma C6_opaque_cursor_is_not_requested :
  exists res w,
    Collections_list (Model := string) sample_version
      (fun _ => Return sample_collection)
      (fun results _ => Return (length results))
      sample_client sample_environ (always empty_page) (CursorStr "abc123") world0
    = Some (res, w)
    /\ Forall (fun rq => req_url rq <> "abc123"
                         /\ strip_prefix "https://api.replicate.com/" (req_url rq) = None)
         (sent w).
Proof.
  eexists _, _. split; [reflexivity |].
  repeat constructor; discriminate.
Qed.

(** C6 (amended).  [list] called with the value [None] as cursor raises
    [ValueError] (the validation error of the library) and transmits
    nothing.  Called without a cursor it issues a [GET] for the base URL
    followed by [/v1/collections]; called with a cursor string that is a
    path (a slash followed by path characters) it issues a [GET] for the
    base URL followed by that path.  The last two are for calls that the
    HTTP library accepts ([wellformed_call]) and a token that resolves. *)
Theorem C6_list_cursor
    (Model : Type) (version : string)
    (Collection_new : gmap string Json -> Result (Collection Model))
    (Page : Type)
    (Page_new : list (Collection Model) -> gmap string Json -> Result Page)
    (self : Client) (environ : gmap string string) (server : Server) :
  (forall w,
     Collections_list version Collection_new Page_new self environ server CursorNone w
       = Some (Raise (ValueError "cursor cannot be None"), w))
  /\ (forall token,
        _api_token self environ = Return token ->
        wellformed_call version self token "GET" "/v1/collections" no_kwargs ->
        exists rq rest res d,
          Collections_list version Collection_new Page_new self environ server
            CursorEllipsis world0
            = Some (res, {| sent := rq :: rest; slept := d |})
          /\ req_method rq = "GET"
          /\ req_url rq = base_url self +:+ "/v1/collections")
  /\ (forall token cursor,
        _api_token self environ = Return token ->
        wellformed_call version self token "GET" cursor no_kwargs ->
        exists rq rest res d,
          Collections_list version Collection_new Page_new self environ server
            (CursorStr cursor) world0
            = Some (res, {| sent := rq :: rest; slept := d |})
          /\ req_method rq = "GET"
          /\ req_url rq = base_url self +:+ cursor).
Proof.
  split; [done |]. split.
  - intros token Htoken _.
    destruct (Collections_list_run Model version Collection_new Page Page_new
                self environ token server Htoken CursorEllipsis "/v1/collections" world0)
      as (res & n & d & Heq); [done | done |].
    exists (blocking_request version self token "GET" "/v1/collections" no_kwargs),
      (replicate n (blocking_request version self token "GET" "/v1/collections" no_kwargs)),
      res, d.
    split; [exact Heq | split; reflexivity].
  - intros token cursor Htoken _.
    destruct (Collections_list_run Model version Collection_new Page Page_new
                self environ token server Htoken (CursorStr cursor) cursor world0)
      as (res & n & d & Heq); [done | done |].
    exists (blocking_request version self token "GET" cursor no_kwargs),
      (replicate n (blocking_request version self token "GET" cursor no_kwargs)),
      res, d.
    split; [exact Heq | split; reflexivity].
Qed.

(** The amended C6 at the sample client and a cursor that is a path with a
    query: the call issues a [GET] for that path under the base URL; with
    [None] it raises and sends nothing. *)
Lemma C6_list_cursor_witness :
  (exists rq rest res d,
     Collections_list (Model := string) sample_version
       (fun _ => Return sample_collection)
       (fun results _ => Return (length results))
       sample_client sample_environ (always empty_page)
       (CursorStr "/v1/collections?cursor=abc") world0
     = Some (res, {| sent := rq :: rest; slept := d |})
     /\ req_method rq = "GET"
     /\ req_url rq = "https://api.replicate.com/v1/collections?cursor=abc")
  /\ outcome (Collections_list (Model := string) sample_version
                (fun _ => Return sample_collection)
                (fun results _ => Return (length results))
                sample_client sample_environ (always empty_page) CursorNone)
     = Some (Raise (ValueError "cursor cannot be None"), 0%nat, []).
Proof.
  destruct (C6_list_cursor string sample_version
              (fun _ => Return sample_collection) nat
              (fun results _ => Return (length results))
              sample_client sample_environ (always empty_page))
    as (Hnone & _ & Hcursor).
  split.
  - apply (Hcursor "r8_sample" "/v1/collections?cursor=abc"); [reflexivity | wellformed].
  - unfold outcome. by rewrite Hnone.
Defined.

(** C9.  For a collection whose [models] field is absent, [len] gives 0 and
    indexing gives [None] for every index; neither raises. *)
Theorem C9_absent_models (Model : Type) (self : Collection Model) :
  models self = None ->
  Collection_len self = Return 0
  /\ forall index, Collection_getitem self index = Return ItemNone.
Proof.
  intros H. unfold Collection_len, Collection_getitem. by rewrite H.
Qed.

Lemma C9_absent_models_witness :
  Collection_len sample_collection = Return 0
  /\ Collection_getitem sample_collection (IdxInt 3) = Return ItemNone.
Proof.
  destruct (C9_absent_models string sample_collection ltac:(reflexivity)) as [Hlen Hitem].
  split; [exact Hlen | exact (Hitem (IdxInt 3))].
Defined.

(** C10.  Reading the deprecated property [id] gives the value of [slug]
    (after the deprecation warning). *)
Theorem C10_id_is_slug (Model : Type) (self : Collection Model) :
  Collection_id self = (["Use `slug` instead of `id`"], slug self).
Proof. reflexivity. Qed.

(** * Further properties of the transport core *)

(** ** One transmission *)

Section One_transmission.

Variable float : string -> Result PyFloat.
Variable version : string.
Variable explicit : option string.
Variables startup environ : gmap string string.
Variable self : Client.
Variable token : string.
Variable server : Server.
Variables method path : string.
Variable kwargs : Kwargs.

Hypothesis Hinit : __init__ float explicit startup = Return self.
Hypothesis Htoken : _api_token self environ = Return token.

Local Abbreviation rq := (blocking_request version self token method path kwargs).
Local Abbreviation rq' := (async_request version self token method path kwargs).

(** A first response that the policy of the session does not retry goes
    straight to the status check. *)
Lemma blocking_once :
  retried rq (max_retries (session_of self method)) (server rq 0%nat) = false ->
  _request version self environ server method path kwargs world0
  = check_status Requests (server rq 0%nat) {| sent := [rq]; slept := [] |}.
Proof.
  intros H. rewrite (_request_run _ _ _ _ Htoken). unfold mbind, M_bind.
  rewrite (send_returns server rq 0); [done | | |].
  - destruct (init_fields _ _ _ _ Hinit) as (_ & _ & _ & Hr & Hw & _).
    unfold session_of. destruct (bool_decide _); [rewrite Hw | rewrite Hr]; done.
  - intros i Hi. lia.
  - by rewrite advance_0.
Qed.

(** No status outside 413 and the list of the read policy is retried by
    either session. *)
Lemma status_not_retried :
  status_code (server rq 0%nat) ∉ 413 :: read_statuses ->
  retried rq (max_retries (session_of self method)) (server rq 0%nat) = false.
Proof.
  intros Hs.
  destruct (init_fields _ _ _ _ Hinit) as (_ & _ & _ & Hr & Hw & _).
  apply not_elem_of_cons in Hs as [H413 Hs].
  assert (Hafter : status_code (server rq 0%nat) ∉ urllib3.RETRY_AFTER_STATUS_CODES).
  { intros Hin. unfold urllib3.RETRY_AFTER_STATUS_CODES in Hin.
    apply elem_of_cons in Hin as [? | Hin]; [done |].
    apply Hs. split_elem Hin; by_computation. }
  apply not_retried_status; [| by right].
  unfold session_of. destruct (bool_decide _); [rewrite Hw | rewrite Hr]; simpl.
  - intros Hin. apply Hs. split_elem Hin. by_computation.
  - exact Hs.
Qed.

(** The non-blocking path hands its one response to the status check. *)
Lemma async_once :
  _request_async version self environ server method path kwargs world0
  = check_status Httpx (server rq' 0%nat) {| sent := [rq']; slept := [] |}.
Proof. by rewrite (_request_async_run _ _ _ _ Htoken). Qed.

End One_transmission.

(** ** What goes out *)

(** Both paths end for every service once a token resolves: the blocking
    one after one or more transmissions of one request, the non-blocking one
    after exactly one. *)
Lemma wire_requests version self environ token server method path kwargs :
  _api_token self environ = Return token ->
  exists res n d res',
    _request version self environ server method path kwargs world0
      = Some (res, {| sent := replicate (S n)
                                (blocking_request version self token method path kwargs);
                      slept := d |})
    /\ _request_async version self environ server method path kwargs world0
       = Some (res', {| sent := [async_request version self token method path kwargs];
                        slept := [] |}).
Proof.
  intros Htoken.
  destruct (_request_total version self token environ Htoken server method path kwargs world0)
    as (res & n & d & Heq & _).
  destruct (_request_async_total version self token environ Htoken server method path kwargs
              world0) as (res' & Heq').
  by exists res, n, d, res'.
Qed.

Lemma auth_headers_lookup version token (h : gmap string string) :
  (auth_headers version token ∪ h) !! "Authorization" = Some ("Token " +:+ token)
  /\ (auth_headers version token ∪ h) !! "User-Agent" = Some ("replicate-python@" +:+ version)
  /\ forall key, key <> "Authorization" -> key <> "User-Agent" ->
       (auth_headers version token ∪ h) !! key = h !! key.
Proof.
  unfold auth_headers. split; [| split].
  - apply lookup_union_Some_l. by rewrite lookup_insert_eq.
  - apply lookup_union_Some_l. rewrite lookup_insert_ne by done.
    by rewrite lookup_singleton_eq.
  - intros key H1 H2. apply lookup_union_r.
    rewrite lookup_insert_ne by done. by rewrite lookup_singleton_ne.
Qed.

(** X1.  For a call that the libraries accept, the request that each path
    issues carries [Authorization: Token] followed by the resolved token and
    the [User-Agent] of the library, also when the caller passes headers of
    these names; the caller's other headers are handed on unchanged. *)
Theorem X1_every_request_is_authorised
    (version : string) (self : Client) (environ : gmap string string) (token : string)
    (server : Server) (method path : string) (kwargs : Kwargs) :
  _api_token self environ = Return token ->
  wellformed_call version self token method path kwargs ->
  exists res rq rest d res' rq' rest' d',
    _request version self environ server method path kwargs world0
      = Some (res, {| sent := rq :: rest; slept := d |})
    /\ _request_async version self environ server method path kwargs world0
       = Some (res', {| sent := rq' :: rest'; slept := d' |})
    /\ forall r, r ∈ [rq; rq'] ->
         req_headers r !! "Authorization" = Some ("Token " +:+ token)
         /\ req_headers r !! "User-Agent" = Some ("replicate-python@" +:+ version)
         /\ forall key, key <> "Authorization" -> key <> "User-Agent" ->
              req_headers r !! key = (default ∅ (headers kwargs) : gmap string string) !! key.
Proof.
  intros Htoken _.
  destruct (wire_requests version self environ token server method path kwargs Htoken)
    as (res & n & d & res' & Heq & Heq').
  eexists res, _, _, d, res', _, [], []. split; [exact Heq |]. split; [exact Heq' |].
  intros r Hin.
  assert (Hh : req_headers r
               = auth_headers version token ∪ default ∅ (headers kwargs)).
  { apply elem_of_cons in Hin as [-> | Hin]; [done |].
    by apply list_elem_of_singleton in Hin as ->. }
  rewrite Hh. apply auth_headers_lookup.
Qed.

Lemma X1_every_request_is_authorised_witness :
  exists res rq rest d,
    _request sample_version sample_client sample_environ (always ok) "GET"
      "/v1/collections"
      {| allow_redirects := None;
         headers := Some {[ "Authorization" := "Token-other"; "Accept" := "application/json" ]};
         extra := ∅ |} world0 = Some (res, {| sent := rq :: rest; slept := d |})
    /\ req_headers rq !! "Authorization" = Some "Token r8_sample"
    /\ req_headers rq !! "Accept" = Some "application/json".
Proof.
  destruct (X1_every_request_is_authorised sample_version sample_client sample_environ
              "r8_sample" (always ok) "GET" "/v1/collections"
              {| allow_redirects := None;
                 headers := Some {[ "Authorization" := "Token-other";
                                    "Accept" := "application/json" ]};
                 extra := ∅ |} ltac:(reflexivity) ltac:(wellformed))
    as (res & rq & rest & d & res' & rq' & rest' & d' & Heq & _ & Hall).
  exists res, rq, rest, d. split; [exact Heq |].
  destruct (Hall rq ltac:(apply elem_of_cons; by left)) as (Hauth & _ & Hother).
  split; [exact Hauth |].
  rewrite Hother; [reflexivity | discriminate | discriminate].
Defined.

(** X2.  For a call that the libraries accept, the request that each path
    issues has the method in upper case and the URL made of the base URL of
    the client followed by the path; when no answer is a redirect, the
    retries of the blocking path repeat that one request and the
    non-blocking path transmits nothing else. *)
Theorem X2_every_request_has_the_same_target
    (version : string) (self : Client) (environ : gmap string string) (token : string)
    (server : Server) (method path : string) (kwargs : Kwargs) :
  _api_token self environ = Return token ->
  wellformed_call version self token method path kwargs ->
  exists res rq rest d res' rq' rest' d',
    _request version self environ server method path kwargs world0
      = Some (res, {| sent := rq :: rest; slept := d |})
    /\ _request_async version self environ server method path kwargs world0
       = Some (res', {| sent := rq' :: rest'; slept := d' |})
    /\ (forall r, r ∈ [rq; rq'] ->
          req_method r = upper method /\ req_url r = base_url self +:+ path)
    /\ (no_redirect server rq -> forall r, r ∈ rest -> r = rq)
    /\ (no_redirect server rq' -> rest' = []).
Proof.
  intros Htoken _.
  destruct (wire_requests version self environ token server method path kwargs Htoken)
    as (res & n & d & res' & Heq & Heq').
  eexists res, _, _, d, res', _, [], []. split; [exact Heq |]. split; [exact Heq' |].
  split; [| split; [| done]].
  - intros r Hin.
    apply elem_of_cons in Hin as [-> | Hin]; [done |].
    by apply list_elem_of_singleton in Hin as ->.
  - intros _ r Hin. by apply elem_of_replicate_inv in Hin.
Qed.

Lemma X2_every_request_has_the_same_target_witness :
  exists res rq rest d,
    _request sample_version sample_client sample_environ (always ok) "get"
      "/v1/collections" no_kwargs world0 = Some (res, {| sent := rq :: rest; slept := d |})
    /\ req_method rq = "GET" /\ req_url rq = "https://api.replicate.com/v1/collections"
    /\ forall r, r ∈ rest -> r = rq.
Proof.
  destruct (X2_every_request_has_the_same_target sample_version sample_client
              sample_environ "r8_sample" (always ok) "get" "/v1/collections" no_kwargs
              ltac:(reflexivity) ltac:(wellformed))
    as (res & rq & rest & d & res' & rq' & rest' & d' & Heq & _ & Hall & Hsame & _).
  exists res, rq, rest, d. split; [exact Heq |].
  destruct (Hall rq ltac:(apply elem_of_cons; by left)) as (Hm & Hu).
  split; [exact Hm |]. split; [exact Hu |].
  apply Hsame. intros i. by_computation.
Defined.

(** ** What comes back *)

Lemma retry_statuses_are_errors status :
  status ∈ 413 :: read_statuses -> is_error status.
Proof. intros Hin. unfold read_statuses in Hin. split_elem Hin; unfold is_error; lia. Qed.

(** X3.  For a call that the libraries accept, a first response with a
    final status below 400 (200 to 399, no redirect) is returned as it is
    by either path, for every method, after one transmission and without
    any sleep. *)
Theorem X3_success_is_returned_as_it_is
    (float : string -> Result PyFloat) (version : string) (explicit : option string)
    (startup environ : gmap string string) (self : Client) (token : string)
    (server : Server) (method path : string) (kwargs : Kwargs) :
  __init__ float explicit startup = Return self ->
  _api_token self environ = Return token ->
  wellformed_call version self token method path kwargs ->
  let rq := blocking_request version self token method path kwargs in
  let rq' := async_request version self token method path kwargs in
  (final_status (status_code (server rq 0%nat)) ->
   ~ is_error (status_code (server rq 0%nat)) ->
   _request version self environ server method path kwargs world0
   = Some (Return (server rq 0%nat), {| sent := [rq]; slept := [] |}))
  /\ (final_status (status_code (server rq' 0%nat)) ->
      ~ is_error (status_code (server rq' 0%nat)) ->
      _request_async version self environ server method path kwargs world0
      = Some (Return (server rq' 0%nat), {| sent := [rq']; slept := [] |})).
Proof.
  intros Hinit Htoken _ rq rq'. split; intros _ Hok.
  - rewrite (blocking_once float version explicit startup environ self token server
               method path kwargs Hinit Htoken).
    + by apply check_status_ok.
    + apply (status_not_retried float version explicit startup self token server
               method path kwargs Hinit).
      intros Hin. by apply Hok, retry_statuses_are_errors.
  - rewrite (async_once version environ self token server method path kwargs Htoken).
    by apply check_status_ok.
Qed.

Lemma X3_success_is_returned_as_it_is_witness :
  outcome (_request sample_version sample_client sample_environ (always ok)
             "POST" "/v1/predictions" no_kwargs) = Some (Return ok, 1%nat, [])
  /\ outcome (_request_async sample_version sample_client sample_environ (always ok)
                "POST" "/v1/predictions" no_kwargs) = Some (Return ok, 1%nat, []).
Proof.
  destruct (X3_success_is_returned_as_it_is sample_float sample_version None
              empty_environ sample_environ sample_client "r8_sample" (always ok)
              "POST" "/v1/predictions" no_kwargs ltac:(reflexivity) ltac:(reflexivity)
              ltac:(wellformed))
    as [Hblocking Hasync].
  unfold outcome. rewrite Hblocking, Hasync.
  - split; reflexivity.
  - wellformed.
  - unfold is_error. simpl. lia.
  - wellformed.
  - unfold is_error. simpl. lia.
Defined.

(** X4.  An error response whose body is a JSON object with a [detail]
    entry raises [ReplicateError] carrying that entry: on the non-blocking
    path for every status in 400-599, on the blocking path for every such
    status that is not retried (none of 413, 429, 500, 502, 503, 504,
    520-524, 526, 527).  One transmission, no sleep. *)
Theorem X4_detail_becomes_the_error
    (float : string -> Result PyFloat) (version : string) (explicit : option string)
    (startup environ : gmap string string) (self : Client) (token : string)
    (server : Server) (method path : string) (kwargs : Kwargs)
    (fields : gmap string Json) (detail : Json) :
  __init__ float explicit startup = Return self ->
  _api_token self environ = Return token ->
  fields !! "detail" = Some detail ->
  let rq := blocking_request version self token method path kwargs in
  let rq' := async_request version self token method path kwargs in
  (is_error (status_code (server rq 0%nat)) ->
   status_code (server rq 0%nat) ∉ 413 :: read_statuses ->
   json_body (server rq 0%nat) = Some (JObj fields) ->
   _request version self environ server method path kwargs world0
   = Some (Raise (ReplicateError detail), {| sent := [rq]; slept := [] |}))
  /\ (is_error (status_code (server rq' 0%nat)) ->
      json_body (server rq' 0%nat) = Some (JObj fields) ->
      _request_async version self environ server method path kwargs world0
      = Some (Raise (ReplicateError detail), {| sent := [rq']; slept := [] |})).
Proof.
  intros Hinit Htoken Hdetail rq rq'. split.
  - intros Herr Hs Hbody.
    rewrite (blocking_once float version explicit startup environ self token server
               method path kwargs Hinit Htoken).
    + by apply check_status_detail with fields.
    + by apply (status_not_retried float version explicit startup self token server
                  method path kwargs Hinit).
  - intros Herr Hbody.
    rewrite (async_once version environ self token server method path kwargs Htoken).
    by apply check_status_detail with fields.
Qed.

Lemma X4_detail_becomes_the_error_witness :
  outcome (_request sample_version sample_client sample_environ
             (always (with_json 404 "Not Found" (JObj {[ "detail" := JStr "No such collection" ]})))
             "GET" "/v1/collections/nope" no_kwargs)
  = Some (Raise (ReplicateError (JStr "No such collection")), 1%nat, []).
Proof.
  destruct (X4_detail_becomes_the_error sample_float sample_version None
              empty_environ sample_environ sample_client "r8_sample"
              (always (with_json 404 "Not Found"
                         (JObj {[ "detail" := JStr "No such collection" ]})))
              "GET" "/v1/collections/nope" no_kwargs
              {[ "detail" := JStr "No such collection" ]} (JStr "No such collection")
              ltac:(reflexivity) ltac:(reflexivity) ltac:(reflexivity))
    as [Hblocking _].
  unfold outcome. rewrite Hblocking.
  - reflexivity.
  - unfold is_error. simpl. lia.
  - by_computation.
  - reflexivity.
Defined.

(** X5.  On the blocking path an error response that is not retried and
    whose body is not JSON, or is a JSON object without [detail], raises
    [ReplicateError] with a text made of the status code and the reason
    phrase: for a reason phrase of printable ASCII without quote or
    backslash, [HTTP error: (], the code in decimal, a comma, the phrase in
    single quotes, [)]. *)
Theorem X5_fallback_message_on_the_blocking_path
    (float : string -> Result PyFloat) (version : string) (explicit : option string)
    (startup environ : gmap string string) (self : Client) (token : string)
    (server : Server) (method path : string) (kwargs : Kwargs) :
  __init__ float explicit startup = Return self ->
  _api_token self environ = Return token ->
  let rq := blocking_request version self token method path kwargs in
  let resp := server rq 0%nat in
  is_error (status_code resp) ->
  status_code resp ∉ 413 :: read_statuses ->
  no_detail resp ->
  plain_text (reason resp) = true ->
  _request version self environ server method path kwargs world0
  = Some (Raise (ReplicateError (JStr
            ("HTTP error: (" +:+ pretty (status_code resp) +:+ ", '"
               +:+ reason resp +:+ "')"))),
          {| sent := [rq]; slept := [] |}).
Proof.
  intros Hinit Htoken rq resp Herr Hs Hn Hp.
  rewrite (blocking_once float version explicit startup environ self token server
             method path kwargs Hinit Htoken).
  - rewrite check_status_no_detail by done. simpl.
    by rewrite http_error_message_plain.
  - by apply (status_not_retried float version explicit startup self token server
                method path kwargs Hinit).
Qed.

Lemma X5_fallback_message_on_the_blocking_path_witness :
  outcome (_request sample_version sample_client sample_environ
             (always (plain 401 "Unauthorized")) "GET" "/v1/collections" no_kwargs)
  = Some (Raise (ReplicateError (JStr "HTTP error: (401, 'Unauthorized')")), 1%nat, []).
Proof.
  unfold outcome.
  rewrite (X5_fallback_message_on_the_blocking_path sample_float sample_version None
             empty_environ sample_environ sample_client "r8_sample"
             (always (plain 401 "Unauthorized")) "GET" "/v1/collections" no_kwargs
             ltac:(reflexivity) ltac:(reflexivity)).
  - reflexivity.
  - unfold is_error. simpl. lia.
  - by_computation.
  - by left.
  - reflexivity.
Defined.

(** X6.  An error response whose body is JSON but not an object (an array,
    a string, a number, a boolean or [null]) ends in [TypeError], raised by
    the subscript with ["detail"], and no [ReplicateError] is built: on the
    non-blocking path for every status in 400-599, on the blocking path for
    every such status that is not retried (none of 413, 429, 500, 502, 503,
    504, 520-524, 526, 527).  One transmission, no sleep. *)
Theorem X6_json_that_is_no_object_raises_type_error
    (float : string -> Result PyFloat) (version : string) (explicit : option string)
    (startup environ : gmap string string) (self : Client) (token : string)
    (server : Server) (method path : string) (kwargs : Kwargs) (body : Json) :
  __init__ float explicit startup = Return self ->
  _api_token self environ = Return token ->
  (forall fields, body <> JObj fields) ->
  let rq := blocking_request version self token method path kwargs in
  let rq' := async_request version self token method path kwargs in
  (is_error (status_code (server rq 0%nat)) ->
   status_code (server rq 0%nat) ∉ 413 :: read_statuses ->
   json_body (server rq 0%nat) = Some body ->
   _request version self environ server method path kwargs world0
   = Some (Raise TypeError, {| sent := [rq]; slept := [] |}))
  /\ (is_error (status_code (server rq' 0%nat)) ->
      json_body (server rq' 0%nat) = Some body ->
      _request_async version self environ server method path kwargs world0
      = Some (Raise TypeError, {| sent := [rq']; slept := [] |})).
Proof.
  intros Hinit Htoken Hbody rq rq'. split.
  - intros Herr Hs Hj.
    rewrite (blocking_once float version explicit startup environ self token server
               method path kwargs Hinit Htoken).
    + by apply check_status_not_object with body.
    + by apply (status_not_retried float version explicit startup self token server
                  method path kwargs Hinit).
  - intros Herr Hj.
    rewrite (async_once version environ self token server method path kwargs Htoken).
    by apply check_status_not_object with body.
Qed.

Lemma X6_json_that_is_no_object_raises_type_error_witness :
  outcome (_request_async sample_version sample_client sample_environ
             (always (with_json 422 "Unprocessable Entity" (JStr "invalid input")))
             "POST" "/v1/predictions" no_kwargs)
  = Some (Raise TypeError, 1%nat, []).
Proof.
  destruct (X6_json_that_is_no_object_raises_type_error sample_float sample_version None
              empty_environ sample_environ sample_client "r8_sample"
              (always (with_json 422 "Unprocessable Entity" (JStr "invalid input")))
              "POST" "/v1/predictions" no_kwargs (JStr "invalid input")
              ltac:(reflexivity) ltac:(reflexivity) ltac:(discriminate))
    as [_ Hasync].
  unfold outcome. rewrite Hasync.
  - reflexivity.
  - unfold is_error. simpl. lia.
  - reflexivity.
Defined.

(** ** Retries and sleeps *)

Section Retrying_more.

Import urllib3.

Variable server : Server.
Variable rq : Request.

Lemma sleep_at_most_once r resp w :
  exists d, sleep r resp w = Some (Return tt, after rq w 0 d) /\ (length d <= 1)%nat.
Proof.
  unfold sleep.
  destruct (0 <? _).
  - eexists [_]. by rewrite after_sleep.
  - destruct (_ <=? 0).
    + exists []. rewrite after_0. split; [done | simpl; lia].
    + eexists [_]. by rewrite after_sleep.
Qed.

(** Each retry sleeps at most once. *)
Lemma urlopen_sleeps fuel : forall r w,
  (Z.to_nat (total r) < fuel)%nat ->
  exists res n d,
    urlopen fuel server rq r w = Some (res, after rq w (S n) d)
    /\ (n <= Z.to_nat (total r))%nat /\ (length d <= n)%nat.
Proof.
  induction fuel as [|fuel IH]; intros r w Hf; [lia |].
  rewrite urlopen_S. simpl.
  destruct (retried rq r _).
  - destruct (Z_le_gt_dec (total r) 0) as [Hle | Hgt].
    + rewrite increment_nonpos by done.
      exists (Raise MaxRetryError), 0%nat, []. split; [done | simpl; lia].
    + rewrite increment_pos by lia.
      unfold mbind, M_bind.
      destruct (sleep_at_most_once (advance r 1) (response_at server rq w 0)
                  (after rq w 1 [])) as (d & Hd & Hlen).
      rewrite Hd.
      destruct (IH (advance r 1) (after rq (after rq w 1 []) 0 d))
        as (res & n & d' & Heq & Hn & Hlen').
      { unfold advance. simpl. lia. }
      rewrite Heq. exists res, (S n), (d ++ d')%list.
      split; [| split].
      * rewrite !after_after. simpl. done.
      * unfold advance in Hn. simpl in Hn. lia.
      * rewrite length_app. lia.
  - exists (Return (response_at server rq w 0)), 0%nat, []. split; [done | simpl; lia].
Qed.

(** Without [Retry-After] headers the sleeps are the backoff delays. *)
Lemma urlopen_no_header fuel : forall r w,
  (Z.to_nat (total r) < fuel)%nat ->
  (forall i, retry_after (response_at server rq w i) = None) ->
  exists res n,
    urlopen fuel server rq r w = Some (res, after rq w (S n) (backoffs r n))
    /\ (n <= Z.to_nat (total r))%nat.
Proof.
  induction fuel as [|fuel IH]; intros r w Hf Hh; [lia |].
  rewrite urlopen_S. simpl.
  destruct (retried rq r _).
  - destruct (Z_le_gt_dec (total r) 0) as [Hle | Hgt].
    + rewrite increment_nonpos by done.
      exists (Raise MaxRetryError), 0%nat. split; [done | lia].
    + rewrite increment_pos by lia.
      unfold mbind, M_bind.
      rewrite (sleep_no_header rq) by apply Hh.
      rewrite after_after.
      destruct (IH (advance r 1)
                  (after rq w (1 + 0)
                     ([] ++ (if get_backoff_time (advance r 1) <=? 0 then []
                             else [get_backoff_time (advance r 1)]))))
        as (res & n & Heq & Hn).
      { unfold advance. simpl. lia. }
      { intros i. rewrite response_at_after. apply Hh. }
      rewrite Heq. exists res, (S n). split.
      * rewrite after_after. simpl. done.
      * unfold advance in Hn. simpl in Hn. lia.
  - exists (Return (response_at server rq w 0)), 0%nat. split; [done | lia].
Qed.

End Retrying_more.


(** X7.  For a client built by the constructor and a call that the
    libraries accept, when no answer is a redirect the blocking path sends
    the request at most six times (five retries), whatever the method and
    whatever else the service answers, and sleeps at most once per retry;
    the non-blocking path sends it exactly once. *)
Theorem X7_at_most_five_retries
    (float : string -> Result PyFloat) (version : string) (explicit : option string)
    (startup environ : gmap string string) (self : Client) (token : string)
    (server : Server) (method path : string) (kwargs : Kwargs) :
  __init__ float explicit startup = Return self ->
  _api_token self environ = Return token ->
  wellformed_call version self token method path kwargs ->
  let rq := blocking_request version self token method path kwargs in
  let rq' := async_request version self token method path kwargs in
  (no_redirect server rq ->
   exists res n d,
     _request version self environ server method path kwargs world0
       = Some (res, {| sent := replicate (S n) rq; slept := d |})
     /\ (n <= 5)%nat /\ (length d <= n)%nat)
  /\ (no_redirect server rq' ->
      exists res,
        _request_async version self environ server method path kwargs world0
          = Some (res, {| sent := [rq']; slept := [] |})).
Proof.
  intros Hinit Htoken _ rq rq'. split; intros _.
  - destruct (init_fields _ _ _ _ Hinit) as (_ & _ & _ & Hr & Hw & _).
    rewrite (_request_run _ _ _ _ Htoken). fold rq.
    set (r := max_retries (session_of self method)).
    assert (Ht : urllib3.total r = 5).
    { unfold r, session_of. destruct (bool_decide _); [rewrite Hw | rewrite Hr]; done. }
    destruct (urlopen_sleeps server rq (S (Z.to_nat (urllib3.total r))) r world0
                ltac:(lia)) as (res & n & d & Heq & Hn & Hd).
    rewrite Ht in Hn. change (Z.to_nat 5) with 5%nat in Hn.
    unfold mbind, M_bind, send, try_except. rewrite Heq.
    destruct res as [resp | e].
    + destruct (check_status_world Requests resp (after rq world0 (S n) d)) as [res' Hres].
      rewrite Hres. by exists res', n, d.
    + destruct e; (eexists _, n, d; split; [reflexivity | split; assumption]).
  - destruct (_request_async_total version self token environ Htoken server method path
                kwargs world0) as (res & Heq).
    exists res. exact Heq.
Qed.

Lemma X7_at_most_five_retries_witness :
  exists res rq n d,
    _request sample_version sample_client sample_environ
      (always (plain 503 "Service Unavailable")) "GET" "/v1/collections" no_kwargs world0
      = Some (res, {| sent := replicate (S n) rq; slept := d |})
    /\ (n <= 5)%nat /\ (length d <= n)%nat.
Proof.
  destruct (X7_at_most_five_retries sample_float sample_version None empty_environ
              sample_environ sample_client "r8_sample"
              (always (plain 503 "Service Unavailable")) "GET" "/v1/collections" no_kwargs
              ltac:(reflexivity) ltac:(reflexivity) ltac:(wellformed))
    as [Hblocking _].
  destruct Hblocking as (res & n & d & Heq & Hn & Hd).
  - intros i. by_computation.
  - by eexists res, _, n, d.
Defined.

(** X8.  For a client built by the constructor and a call that the
    libraries accept, when no answer is a redirect and none carries a
    [Retry-After] header, the sleeps of one blocking call are the first
    delays of 4, 8, 16, 32 seconds, one for each retry after the first
    (which is immediate): the call sleeps at most 60 seconds in all. *)
Theorem X8_sleeps_without_retry_after
    (float : string -> Result PyFloat) (version : string) (explicit : option string)
    (startup environ : gmap string string) (self : Client) (token : string)
    (server : Server) (method path : string) (kwargs : Kwargs) :
  __init__ float explicit startup = Return self ->
  _api_token self environ = Return token ->
  wellformed_call version self token method path kwargs ->
  let rq := blocking_request version self token method path kwargs in
  no_redirect server rq ->
  (forall i, retry_after (server rq i) = None) ->
  exists res n,
    _request version self environ server method path kwargs world0
      = Some (res, {| sent := replicate (S n) rq; slept := take (n - 1) backoff_delays |})
    /\ (n <= 5)%nat
    /\ foldr Z.add 0 (take (n - 1) backoff_delays) <= 60.
Proof.
  intros Hinit Htoken _ rq _ Hh.
  destruct (init_fields _ _ _ _ Hinit) as (_ & _ & _ & Hr & Hw & _).
  rewrite (_request_run _ _ _ _ Htoken). fold rq.
  set (r := max_retries (session_of self method)).
  assert (Hcase : r = read_retries \/ r = write_retries).
  { unfold r, session_of. destruct (bool_decide _); [rewrite Hw | rewrite Hr]; auto. }
  assert (Ht : urllib3.total r = 5) by (by destruct Hcase as [-> | ->]).
  destruct (urlopen_no_header server rq (S (Z.to_nat (urllib3.total r))) r world0
              ltac:(lia) ltac:(intros i; apply Hh)) as (res & n & Heq & Hn).
  rewrite Ht in Hn. change (Z.to_nat 5) with 5%nat in Hn.
  assert (Hb : backoffs r n = take (n - 1) backoff_delays).
  { destruct Hcase as [-> | ->]; [by apply backoffs_read | by apply backoffs_write]. }
  rewrite Hb in Heq.
  unfold mbind, M_bind, send, try_except. rewrite Heq.
  assert (Hsum : foldr Z.add 0 (take (n - 1) backoff_delays) <= 60).
  { do 6 (destruct n as [|n]; [simpl; lia |]). lia. }
  destruct res as [resp | e].
  - destruct (check_status_world Requests resp
                (after rq world0 (S n) (take (n - 1) backoff_delays))) as [res' Hres].
    rewrite Hres. by exists res', n.
  - destruct e; (eexists _, n; split; [reflexivity | split; assumption]).
Qed.

Lemma X8_sleeps_without_retry_after_witness :
  exists res rq n,
    _request sample_version sample_client sample_environ
      (always (plain 503 "Service Unavailable")) "GET" "/v1/collections" no_kwargs world0
      = Some (res, {| sent := replicate (S n) rq; slept := take (n - 1) backoff_delays |})
    /\ (n <= 5)%nat
    /\ foldr Z.add 0 (take (n - 1) backoff_delays) <= 60.
Proof.
  destruct (X8_sleeps_without_retry_after sample_float sample_version None empty_environ
              sample_environ sample_client "r8_sample"
              (always (plain 503 "Service Unavailable")) "GET" "/v1/collections" no_kwargs
              ltac:(reflexivity) ltac:(reflexivity) ltac:(wellformed))
    as (res & n & Heq & Hn & Hsum).
  - intros i. by_computation.
  - intros i. reflexivity.
  - by eexists res, _, n.
Defined.



(** X10.  For a call that the libraries accept, the blocking path sends a
    request again because of a status only when its method is exactly
    [POST] or [PUT], or is [GET] in any letter case: every other method
    ([HEAD], [OPTIONS], [PATCH], [DELETE], also [post] in lower case, which
    selects the read session) is sent exactly once, whatever the status of
    a first response that is no redirect. *)
Theorem X10_other_methods_are_sent_once
    (float : string -> Result PyFloat) (version : string) (explicit : option string)
    (startup environ : gmap string string) (self : Client) (token : string)
    (server : Server) (method path : string) (kwargs : Kwargs) :
  __init__ float explicit startup = Return self ->
  _api_token self environ = Return token ->
  wellformed_call version self token method path kwargs ->
  method ∉ ["POST"; "PUT"] ->
  upper method <> "GET" ->
  let rq := blocking_request version self token method path kwargs in
  status_code (server rq 0%nat) ∉ redirect_statuses ->
  exists res,
    _request version self environ server method path kwargs world0
    = Some (res, {| sent := [rq]; slept := [] |}).
Proof.
  intros Hinit Htoken _ Hm Hget rq _.
  destruct (init_fields _ _ _ _ Hinit) as (_ & _ & _ & Hr & Hw & _).
  rewrite (blocking_once float version explicit startup environ self token server
             method path kwargs Hinit Htoken).
  - apply check_status_world.
  - apply not_retried_method.
    change (req_method (blocking_request version self token method path kwargs))
      with (upper method).
    unfold session_of, urllib3._is_method_retryable.
    destruct (bool_decide _) eqn:Hwrite; [rewrite Hw | rewrite Hr]; simpl.
    + rewrite bool_decide_eq_false_2; [done |].
      apply bool_decide_eq_true_1 in Hwrite.
      apply not_elem_of_cons in Hm as [H1 Hm].
      apply not_elem_of_cons in Hm as [H2 _].
      split_elem Hwrite; [done | done | |]; by_computation.
    + rewrite bool_decide_eq_false_2; [done |].
      rewrite upper_upper. by intros Hin%list_elem_of_singleton.
Qed.

Lemma X10_other_methods_are_sent_once_witness :
  exists res,
    outcome (_request sample_version sample_client sample_environ
               (always (plain 429 "Too Many Requests")) "post" "/v1/predictions" no_kwargs)
    = Some (res, 1%nat, []).
Proof.
  destruct (X10_other_methods_are_sent_once sample_float sample_version None
              empty_environ sample_environ sample_client "r8_sample"
              (always (plain 429 "Too Many Requests")) "post" "/v1/predictions" no_kwargs
              ltac:(reflexivity) ltac:(reflexivity) ltac:(wellformed)
              ltac:(by_computation) ltac:(discriminate) ltac:(by_computation))
    as [res Heq].
  exists res. unfold outcome. by rewrite Heq.
Defined.

(** ** Environment *)

(** X12.  The constructor does not look at [REPLICATE_API_TOKEN]: setting,
    changing or removing that variable before construction changes neither
    whether construction succeeds nor the client it builds. *)
Theorem X12_constructor_ignores_the_token_variable
    (float : string -> Result PyFloat) (explicit : option string)
    (startup : gmap string string) (t : string) :
  __init__ float explicit (<[ "REPLICATE_API_TOKEN" := t ]> startup)
  = __init__ float explicit startup
  /\ __init__ float explicit (delete "REPLICATE_API_TOKEN" startup)
     = __init__ float explicit startup.
Proof.
  unfold __init__. split.
  - by rewrite !lookup_insert_ne by done.
  - by rewrite !lookup_delete_ne by done.
Qed.

(** * Further properties of collections *)

Section Collection_items.

Variable Model : Type.
Implicit Type l : list Model.

Lemma list_getitem_inside l (i : Z) :
  0 <= i < Z.of_nat (length l) ->
  exists m, l !! Z.to_nat i = Some m
            /\ list_getitem l (IdxInt i) = Return (ItemModel m)
            /\ list_getitem l (IdxInt (i - Z.of_nat (length l))) = Return (ItemModel m).
Proof.
  intros Hi.
  destruct (lookup_lt_is_Some_2 l (Z.to_nat i) ltac:(lia)) as [m Hm].
  exists m. split; [exact Hm |]. unfold list_getitem. cbv zeta.
  assert (H1 : (i <? 0) = false) by (apply Z.ltb_ge; lia).
  assert (H2 : (Z.of_nat (length l) <=? i) = false) by (apply Z.leb_gt; lia).
  assert (H3 : (i - Z.of_nat (length l) <? 0) = true) by (apply Z.ltb_lt; lia).
  split.
  - rewrite !H1, H2. simpl. by rewrite Hm.
  - rewrite H3.
    replace (i - Z.of_nat (length l) + Z.of_nat (length l)) with i by lia.
    rewrite H1, H2. simpl. by rewrite Hm.
Qed.

Lemma list_getitem_outside l (i : Z) :
  i < - Z.of_nat (length l) \/ Z.of_nat (length l) <= i ->
  list_getitem l (IdxInt i) = Raise IndexError.
Proof.
  intros Hi. unfold list_getitem. cbv zeta.
  destruct (i <? 0) eqn:Hneg.
  - apply Z.ltb_lt in Hneg.
    assert (H1 : (i + Z.of_nat (length l) <? 0) = true) by (apply Z.ltb_lt; lia).
    by rewrite H1.
  - apply Z.ltb_ge in Hneg.
    assert (H1 : (Z.of_nat (length l) <=? i) = true) by (apply Z.leb_le; lia).
    rewrite H1. by destruct (i <? 0).
Qed.

(** The positions [j], [j + 1], ... select a run of the list. *)
Lemma omap_run l (n : nat) : forall j : nat,
  (j + n <= length l)%nat ->
  omap (fun i : Z => l !! Z.to_nat i)
    ((fun k : nat => Z.of_nat j + Z.of_nat k * 1) <$> seq 0 n)
  = take n (drop j l).
Proof.
  induction n as [|n IH]; intros j Hj; [done |].
  destruct (lookup_lt_is_Some_2 l j ltac:(lia)) as [m Hm].
  rewrite (drop_S _ _ _ Hm).
  change (seq 0 (S n)) with (0%nat :: seq 1 n).
  rewrite <- fmap_S_seq. rewrite fmap_cons, <- list_fmap_compose. simpl.
  replace (Z.to_nat (Z.of_nat j + Z.of_nat 0 * 1)) with j by lia. rewrite Hm. f_equal.
  rewrite <- (IH (S j) ltac:(lia)).
  change (list_omap Z Model) with (@omap list _ Z Model). f_equal.
  apply list_fmap_ext. intros k x _. simpl. lia.
Qed.

End Collection_items.

(** X13.  With [models] present, indexing a collection with an integer
    behaves like indexing the list: the indices [0] to [len - 1] give the
    models in order, [i - len] gives the same model as [i] (so [-1] is the
    last), and every other integer raises [IndexError]; [len] gives the
    number of models. *)
Theorem X13_integer_indices
    (Model : Type) (self : Collection Model) (l : list Model) :
  models self = Some l ->
  Collection_len self = Return (Z.of_nat (length l))
  /\ (forall i, 0 <= i < Z.of_nat (length l) ->
        exists m, l !! Z.to_nat i = Some m
                  /\ Collection_getitem self (IdxInt i) = Return (ItemModel m)
                  /\ Collection_getitem self (IdxInt (i - Z.of_nat (length l)))
                     = Return (ItemModel m))
  /\ (forall i, i < - Z.of_nat (length l) \/ Z.of_nat (length l) <= i ->
        Collection_getitem self (IdxInt i) = Raise IndexError).
Proof.
  intros H. unfold Collection_len, Collection_getitem. rewrite H.
  split; [done |]. split.
  - apply list_getitem_inside.
  - apply list_getitem_outside.
Qed.

Lemma X13_integer_indices_witness :
  Collection_getitem (mkCollection "s" "n" "d" (Some ["a"; "b"; "c"])) (IdxInt (-4))
  = Raise IndexError.
Proof.
  destruct (X13_integer_indices string (mkCollection "s" "n" "d" (Some ["a"; "b"; "c"]))
              ["a"; "b"; "c"] ltac:(reflexivity)) as (_ & _ & Hout).
  apply Hout. simpl. lia.
Defined.

(** X14.  With [models] present, a slice of a collection is a plain list of
    models: [c[a:b]] for [0 <= a <= b <= len] gives the models at positions
    [a] to [b - 1], [c[:]] gives them all, and a step of zero raises
    [ValueError]. *)
Theorem X14_slices
    (Model : Type) (self : Collection Model) (l : list Model) :
  models self = Some l ->
  (forall a b : nat, (a <= b <= length l)%nat ->
     Collection_getitem self (IdxSlice (Some (Z.of_nat a)) (Some (Z.of_nat b)) None)
     = Return (ItemModels (take (b - a) (drop a l))))
  /\ Collection_getitem self (IdxSlice None None None) = Return (ItemModels l)
  /\ (forall start stop,
        Collection_getitem self (IdxSlice start stop (Some 0))
        = Raise (ValueError "slice step cannot be zero")).
Proof.
  intros H. unfold Collection_getitem. rewrite H. split; [| split].
  - intros a b Hab. unfold list_getitem. simpl. do 2 f_equal.
    unfold slice_positions, adjust_index. simpl.
    replace (Z.of_nat a <? 0) with false by (symmetry; apply Z.ltb_ge; lia).
    replace (Z.of_nat b <? 0) with false by (symmetry; apply Z.ltb_ge; lia).
    assert (Hfirst : (if Z.of_nat (length l) <=? Z.of_nat a
                      then Z.of_nat (length l) else Z.of_nat a) = Z.of_nat a).
    { destruct (Z.leb_spec (Z.of_nat (length l)) (Z.of_nat a)); lia. }
    assert (Hlast : (if Z.of_nat (length l) <=? Z.of_nat b
                     then Z.of_nat (length l) else Z.of_nat b) = Z.of_nat b).
    { destruct (Z.leb_spec (Z.of_nat (length l)) (Z.of_nat b)); lia. }
    rewrite Hfirst, Hlast.
    assert (Hcount : Z.to_nat (if Z.of_nat a <? Z.of_nat b
                               then (Z.of_nat b - Z.of_nat a - 1) / 1 + 1 else 0)
                     = (b - a)%nat).
    { destruct (Z.ltb_spec (Z.of_nat a) (Z.of_nat b)); [rewrite Z.div_1_r |]; lia. }
    rewrite Hcount. apply omap_run. lia.
  - unfold list_getitem. simpl. do 2 f_equal.
    unfold slice_positions. simpl.
    assert (Hcount : Z.to_nat (if 0 <? Z.of_nat (length l)
                               then (Z.of_nat (length l) - 0 - 1) / 1 + 1 else 0)
                     = length l).
    { destruct (Z.ltb_spec 0 (Z.of_nat (length l))); [rewrite Z.div_1_r |]; lia. }
    rewrite Hcount.
    etrans; [apply (omap_run Model l (length l) 0 ltac:(lia)) |].
    by rewrite drop_0, firstn_all.
  - intros start stop. reflexivity.
Qed.

Lemma X14_slices_witness :
  Collection_getitem (mkCollection "s" "n" "d" (Some ["a"; "b"; "c"; "d"]))
    (IdxSlice (Some 1) (Some 3) None)
  = Return (ItemModels ["b"; "c"]).
Proof.
  destruct (X14_slices string (mkCollection "s" "n" "d" (Some ["a"; "b"; "c"; "d"]))
              ["a"; "b"; "c"; "d"] ltac:(reflexivity)) as (Hrun & _ & _).
  apply (Hrun 1%nat 3%nat). simpl. lia.
Defined.

(** X15.  Iterating a collection succeeds exactly when [models] is present:
    it then yields the models, [len] is their number, and the model
    yielded at position [i] is the one that index [i] gives.  When [models]
    is absent it raises [TypeError], although [len] gives 0 and indexing
    gives [None]. *)
Theorem X15_iteration_agrees_with_len_and_indexing
    (Model : Type) (self : Collection Model) :
  (forall l, models self = Some l ->
     Collection_iter self = Return l
     /\ Collection_len self = Return (Z.of_nat (length l))
     /\ forall (i : nat) m, l !! i = Some m ->
          Collection_getitem self (IdxInt (Z.of_nat i)) = Return (ItemModel m))
  /\ (models self = None ->
      Collection_iter self = Raise TypeError
      /\ Collection_len self = Return 0
      /\ forall index, Collection_getitem self index = Return ItemNone)
  /\ (forall l, Collection_iter self = Return l <-> models self = Some l).
Proof.
  unfold Collection_iter, Collection_len, Collection_getitem.
  split; [| split].
  - intros l ->. split; [done |]. split; [done |].
    intros i m Hm.
    destruct (list_getitem_inside Model l (Z.of_nat i)) as (m' & Hm' & Hget & _).
    { apply lookup_lt_Some in Hm. lia. }
    rewrite Nat2Z.id in Hm'. by replace m with m' by congruence.
  - by intros ->.
  - intros l. destruct (models self) as [l' |]; split; intros H; congruence.
Qed.

Lemma X15_iteration_agrees_with_len_and_indexing_witness :
  Collection_iter sample_collection = Raise TypeError
  /\ Collection_iter (mkCollection "s" "n" "d" (Some ["a"; "b"])) = Return ["a"; "b"]
  /\ Collection_getitem (mkCollection "s" "n" "d" (Some ["a"; "b"])) (IdxInt 1)
     = Return (ItemModel "b").
Proof.
  split.
  - apply (X15_iteration_agrees_with_len_and_indexing string sample_collection).
    reflexivity.
  - destruct (X15_iteration_agrees_with_len_and_indexing string
                (mkCollection "s" "n" "d" (Some ["a"; "b"]))) as [Hiter _].
    destruct (Hiter ["a"; "b"] ltac:(reflexivity)) as (Hyield & _ & Hget).
    split; [exact Hyield |].
    apply (Hget 1%nat "b"). reflexivity.
Defined.

(** ** Fetching collections *)

Section Collections_more.

Variable float : string -> Result PyFloat.
Variable Model : Type.
Variable version : string.
Variable Collection_new : gmap string Json -> Result (Collection Model).
Variable Page : Type.
Variable Page_new : list (Collection Model) -> gmap string Json -> Result Page.
Variable explicit : option string.
Variables startup environ : gmap string string.
Variable self : Client.
Variable token : string.
Variable server : Server.

Hypothesis Hinit : __init__ float explicit startup = Return self.
Hypothesis Htoken : _api_token self environ = Return token.



End Collections_more.



(** X17.  [get] hands on the errors of the request: for a slug that the
    service answers with an error status that is not retried (404, say) and
    a JSON [detail], it raises [ReplicateError] with that [detail], and the
    constructor of [Collection] plays no part. *)
Theorem X17_get_collection_not_found
    (float : string -> Result PyFloat) (Model : Type) (version : string)
    (Collection_new : gmap string Json -> Result (Collection Model))
    (explicit : option string) (startup environ : gmap string string)
    (self : Client) (token : string) (server : Server) (slug : string)
    (fields : gmap string Json) (detail : Json) :
  __init__ float explicit startup = Return self ->
  _api_token self environ = Return token ->
  let rq := blocking_request version self token "GET" ("/v1/collections/" +:+ slug)
              no_kwargs in
  is_error (status_code (server rq 0%nat)) ->
  status_code (server rq 0%nat) ∉ 413 :: read_statuses ->
  json_body (server rq 0%nat) = Some (JObj fields) ->
  fields !! "detail" = Some detail ->
  Collections_get version Collection_new self environ server slug world0
  = Some (Raise (ReplicateError detail), {| sent := [rq]; slept := [] |}).
Proof.
  intros Hinit Htoken rq Herr Hs Hbody Hdetail.
  unfold Collections_get, mbind, M_bind.
  rewrite (blocking_once float version explicit startup environ self token server
             "GET" _ no_kwargs Hinit Htoken).
  - fold rq. by rewrite (check_status_detail Requests _ _ fields detail).
  - by apply (status_not_retried float version explicit startup self token server
                "GET" _ no_kwargs Hinit).
Qed.

Lemma X17_get_collection_not_found_witness :
  outcome (Collections_get (Model := string) sample_version
             (fun _ => Return sample_collection)
             sample_client sample_environ
             (always (with_json 404 "Not Found" (JObj {[ "detail" := JStr "Not found." ]})))
             "nope")
  = Some (Raise (ReplicateError (JStr "Not found.")), 1%nat, []).
Proof.
  unfold outcome.
  rewrite (X17_get_collection_not_found sample_float string sample_version
             (fun _ => Return sample_collection) None empty_environ sample_environ
             sample_client "r8_sample"
             (always (with_json 404 "Not Found" (JObj {[ "detail" := JStr "Not found." ]})))
             "nope" {[ "detail" := JStr "Not found." ]} (JStr "Not found.")
             ltac:(reflexivity) ltac:(reflexivity)).
  - reflexivity.
  - unfold is_error. simpl. lia.
  - by_computation.
  - reflexivity.
  - reflexivity.
Defined.





(** X20.  [list] checks the cursor before it resolves the token: with no
    token to be found, [list(None)] still raises [ValueError], while [list]
    with no cursor or with a cursor string, and [get], raise the error of
    the missing token; in all these cases nothing is transmitted. *)
Theorem X20_cursor_is_checked_before_the_token
    (Model : Type) (version : string)
    (Collection_new : gmap string Json -> Result (Collection Model))
    (Page : Type)
    (Page_new : list (Collection Model) -> gmap string Json -> Result Page)
    (self : Client) (environ : gmap string string) (server : Server) (e : Exn) (w : World) :
  _api_token self environ = Raise e ->
  Collections_list version Collection_new Page_new self environ server CursorNone w
  = Some (Raise (ValueError "cursor cannot be None"), w)
  /\ (forall cursor, cursor <> CursorNone ->
        Collections_list version Collection_new Page_new self environ server cursor w
        = Some (Raise e, w))
  /\ (forall slug,
        Collections_get version Collection_new self environ server slug w
        = Some (Raise e, w)).
Proof.
  intros Htoken.
  assert (Hget : forall path,
            _request version self environ server "GET" path no_kwargs w = Some (Raise e, w)).
  { intros path.
    by destruct (no_token_no_request version self environ e Htoken server "GET"
                   path no_kwargs w) as [-> _]. }
  split; [done |]. split.
  - intros cursor Hc. unfold Collections_list.
    destruct cursor as [| | s]; [| done |]; unfold mbind, M_bind; by rewrite Hget.
  - intros slug. unfold Collections_get, mbind, M_bind. by rewrite Hget.
Qed.

Lemma X20_cursor_is_checked_before_the_token_witness :
  outcome (Collections_list (Model := string) sample_version
             (fun _ => Return sample_collection)
             (fun results _ => Return (length results))
             sample_client empty_environ (always ok) CursorNone)
  = Some (Raise (ValueError "cursor cannot be None"), 0%nat, [])
  /\ outcome (Collections_list (Model := string) sample_version
                (fun _ => Return sample_collection)
                (fun results _ => Return (length results))
                sample_client empty_environ (always ok) CursorEllipsis)
     = Some (Raise (ReplicateError (JStr no_token_message)), 0%nat, []).
Proof.
  destruct (X20_cursor_is_checked_before_the_token string sample_version
              (fun _ => Return sample_collection) nat
              (fun results _ => Return (length results))
              sample_client empty_environ (always ok)
              (ReplicateError (JStr no_token_message)) world0 ltac:(reflexivity))
    as (Hnone & Hother & _).
  unfold outcome. rewrite Hnone, (Hother CursorEllipsis ltac:(discriminate)).
  split; reflexivity.
Defined.
